(** * Budget consistency of the finance data layer

    A shallow embedding of [src/contexts/FinanceContext.tsx] (the
    [FinanceProvider] component) and of the records of [src/types/index.ts].

    - A JavaScript [number] is an IEEE 754 binary64 value: Rocq's primitive
      [float], with the kernel's round-to-nearest addition.
    - A React state cell is a field of [Store]; the value a render captured of
      it is a field of [Render].  The functions of the provider are closures
      of one render: what they read through the names [transactions] and
      [budgets] is the render's snapshot, what they write through a setter is
      the store.
    - The Supabase client, the toast hook and the console are external: a
      call to them is an [Event] of the trace, and the replies of Supabase
      come from an oracle, [Supabase].
    - [async] functions run in a state-and-exception monad; a call that is
      not awaited returns the part of the callee that runs later. *)

From Stdlib Require Import String List Bool ZArith Zpower Lia Permutation.
From Stdlib Require Import Floats.PrimFloat Floats.FloatOps Floats.SpecFloat.
From Stdlib Require Import Floats.FloatAxioms.
Import ListNotations.

Open Scope string_scope.
Open Scope list_scope.

(** ** The records of [src/types/index.ts] *)

Inductive TransactionType : Type := income | expense.

Inductive Period : Type := weekly | monthly | yearly.

Inductive CategoryType : Type := for_income | for_expense | both.

Definition TransactionType_eqb (a b : TransactionType) : bool :=
  match a, b with
  | income, income | expense, expense => true
  | _, _ => false
  end.

Module User.
Record t : Type := mk
  { id : string; name : string; email : string; notificationsEnabled : bool }.
End User.

Module Transaction.
Record t : Type := mk
  { id : string;
    amount : float;
    category : string;
    date : string;
    description : string;
    type : TransactionType }.

(** [Partial<Transaction>]: every property may be missing. *)
Record partial : Type := mkPartial
  { id' : option string;
    amount' : option float;
    category' : option string;
    date' : option string;
    description' : option string;
    type' : option TransactionType }.

(** [{ ...tr, ...transaction }] *)
Definition spread (tr : t) (p : partial) : t :=
  {| id := match id' p with Some x => x | None => id tr end;
     amount := match amount' p with Some x => x | None => amount tr end;
     category := match category' p with Some x => x | None => category tr end;
     date := match date' p with Some x => x | None => date tr end;
     description :=
       match description' p with Some x => x | None => description tr end;
     type := match type' p with Some x => x | None => type tr end |}.
End Transaction.

Module Budget.
Record t : Type := mk
  { id : string;
    category : string;
    limit : float;
    spent : float;
    period : Period }.

Record partial : Type := mkPartial
  { id' : option string;
    category' : option string;
    limit' : option float;
    spent' : option float;
    period' : option Period }.

(** [{ ...b, ...budget }] *)
Definition spread (b : t) (p : partial) : t :=
  {| id := match id' p with Some x => x | None => id b end;
     category := match category' p with Some x => x | None => category b end;
     limit := match limit' p with Some x => x | None => limit b end;
     spent := match spent' p with Some x => x | None => spent b end;
     period := match period' p with Some x => x | None => period b end |}.

(** [{ ...budget, spent: s }] *)
Definition with_spent (b : t) (s : float) : t :=
  {| id := id b; category := category b; limit := limit b; spent := s;
     period := period b |}.
End Budget.

Module Category.
Record t : Type := mk
  { id : string; name : string; type : CategoryType; color : string }.

Record partial : Type := mkPartial
  { id' : option string;
    name' : option string;
    type' : option CategoryType;
    color' : option string }.

(** [{ ...c, ...category }] *)
Definition spread (c : t) (p : partial) : t :=
  {| id := match id' p with Some x => x | None => id c end;
     name := match name' p with Some x => x | None => name c end;
     type := match type' p with Some x => x | None => type c end;
     color := match color' p with Some x => x | None => color c end |}.
End Category.

(** ** The spent-amount calculator

    [transactions
       .filter(tr => tr.category === category && tr.type === 'expense')
       .reduce((total, tr) => total + tr.amount, 0)]
    as a function of the array it reads. *)

Definition spent_filter (category : string) (tr : Transaction.t) : bool :=
  String.eqb (Transaction.category tr) category
  && TransactionType_eqb (Transaction.type tr) expense.

Definition computeSpent (ledger : list Transaction.t) (category : string)
  : float :=
  fold_left (fun total tr => (total + Transaction.amount tr)%float)
            (filter (spent_filter category) ledger)
            0%float.

(** ** The remote collections

    The rows Supabase returns and the payloads the provider sends.  A row's
    numeric columns are given as numbers ([Number(...)] is the identity on
    them); a row's [description] may be [null]. *)

Record TransactionRow : Type :=
  { row_id : string;
    row_amount : float;
    row_category : string;
    row_date : string;
    row_description : option string;
    row_type : TransactionType }.

Record BudgetRow : Type :=
  { brow_id : string;
    brow_category : string;
    brow_budget_limit : float;
    brow_spent : float;
    brow_period : Period }.

Record CategoryRow : Type :=
  { crow_id : string;
    crow_name : string;
    crow_type : CategoryType;
    crow_color : string }.

Record TransactionInsert : Type :=
  { ins_user_id : string;
    ins_amount : float;
    ins_category : string;
    ins_date : string;
    ins_description : string;
    ins_type : TransactionType }.

Record TransactionUpdate : Type :=
  { upd_amount : option float;
    upd_category : option string;
    upd_date : option string;
    upd_description : option string;
    upd_type : option TransactionType }.

Record BudgetInsert : Type :=
  { bins_user_id : string;
    bins_category : string;
    bins_budget_limit : float;
    bins_spent : float;
    bins_period : Period }.

(** The object [updateData] of [updateBudget]; [recalculateBudgets] sends
    [{ spent: budget.spent }]. *)
Record BudgetUpdate : Type :=
  { bupd_category : option string;
    bupd_budget_limit : option float;
    bupd_spent : option float;
    bupd_period : option Period }.

Record CategoryInsert : Type :=
  { cins_user_id : string;
    cins_name : string;
    cins_type : CategoryType;
    cins_color : string }.

Record CategoryUpdate : Type :=
  { cupd_name : option string;
    cupd_type : option CategoryType;
    cupd_color : option string }.

(** Every call the provider makes on [supabase.from(...)]. *)
Inductive Request : Type :=
| InsertTransaction (values : TransactionInsert)
| UpdateTransactionById (values : TransactionUpdate) (id : string)
| DeleteTransactionById (id : string)
| InsertBudget (values : BudgetInsert)
| UpdateBudgetById (values : BudgetUpdate) (id : string)
| UpdateBudgetSpentByCategory (spent : float) (category : string)
| DeleteBudgetById (id : string)
| InsertCategory (values : CategoryInsert)
| UpdateCategoryById (values : CategoryUpdate) (id : string)
| DeleteCategoryById (id : string)
| SelectTransactions
| SelectBudgets
| SelectCategories.

(** What can be thrown inside the provider: the [error] of a Supabase reply,
    or the [RangeError] of [toISOString] on an invalid date. *)
Inductive Exn : Type :=
| PostgrestError (message : string)
| RangeError.

(** [{ data, error }] *)
Inductive Reply (A : Type) : Type :=
| Error (error : Exn)
| Data (data : A).
Arguments Error {A} error.
Arguments Data {A} data.

(** The remote store, as the provider sees it: the reply to each call, which
    may depend on the moment of the call (the number of calls made before
    it). *)
Record Supabase : Type :=
  { insert_transaction : nat -> TransactionInsert -> Reply TransactionRow;
    insert_budget : nat -> BudgetInsert -> Reply BudgetRow;
    insert_category : nat -> CategoryInsert -> Reply CategoryRow;
    mutate : nat -> Request -> Reply unit;
    select_transactions : nat -> Reply (list TransactionRow);
    select_budgets : nat -> Reply (list BudgetRow);
    select_categories : nat -> Reply (list CategoryRow) }.

(** ** State, trace and the monad of the provider's functions *)

(** The four [useState] cells. *)
Record Store : Type :=
  { transactions : list Transaction.t;
    budgets : list Budget.t;
    categories : list Category.t;
    isLoading : bool }.

(** What one render binds: the values of the cells then, and [useAuth()]. *)
Record Render : Type :=
  { seen : Store;
    isAuthenticated : bool;
    user : option User.t }.

Inductive Event : Type :=
| Remote (request : Request)
| Toast (title description : string) (destructive : bool)
| ConsoleError (label : string).

Record World : Type :=
  { store : Store;
    calls : nat;
    trace : list Event }.

Inductive Outcome (A : Type) : Type :=
| Returned (value : A)
| Thrown (error : Exn).
Arguments Returned {A} value.
Arguments Thrown {A} error.

Definition M (A : Type) : Type := World -> Outcome A * World.

Definition ret {A} (a : A) : M A := fun w => (Returned a, w).

Definition bind {A B} (m : M A) (k : A -> M B) : M B :=
  fun w =>
    match m w with
    | (Returned a, w') => k a w'
    | (Thrown e, w') => (Thrown e, w')
    end.

Definition throw {A} (e : Exn) : M A := fun w => (Thrown e, w).

(** [try { body } catch (error) { handler }] *)
Definition try_catch {A} (body : M A) (handler : Exn -> M A) : M A :=
  fun w =>
    match body w with
    | (Returned a, w') => (Returned a, w')
    | (Thrown e, w') => handler e w'
    end.

(** [try { body } finally { last }] *)
Definition try_finally {A} (body : M A) (last : M unit) : M A :=
  fun w =>
    match body w with
    | (o, w') =>
        match last w' with
        | (Returned _, w'') => (o, w'')
        | (Thrown e, w'') => (Thrown e, w'')
        end
    end.

Declare Scope provider_scope.
Delimit Scope provider_scope with provider.
Notation "x <- m ;; k" := (bind m (fun x => k))
  (at level 61, m at next level, right associativity) : provider_scope.
Notation "m ;; k" := (bind m (fun _ => k))
  (at level 61, right associativity) : provider_scope.
Open Scope provider_scope.

Definition emit (e : Event) : M unit :=
  fun w =>
    (Returned tt,
     {| store := store w; calls := calls w; trace := trace w ++ [e] |}).

Definition modify (f : Store -> Store) : M unit :=
  fun w =>
    (Returned tt,
     {| store := f (store w); calls := calls w; trace := trace w |}).

(** The setters of [useState]: with an updater function the new value is
    computed from the pending value of the cell, with a value it replaces
    it. *)
Definition setTransactions (f : list Transaction.t -> list Transaction.t)
  : M unit :=
  modify (fun s =>
    {| transactions := f (transactions s); budgets := budgets s;
       categories := categories s; isLoading := isLoading s |}).

Definition setBudgets (f : list Budget.t -> list Budget.t) : M unit :=
  modify (fun s =>
    {| transactions := transactions s; budgets := f (budgets s);
       categories := categories s; isLoading := isLoading s |}).

Definition setCategories (f : list Category.t -> list Category.t) : M unit :=
  modify (fun s =>
    {| transactions := transactions s; budgets := budgets s;
       categories := f (categories s); isLoading := isLoading s |}).

Definition setIsLoading (b : bool) : M unit :=
  modify (fun s =>
    {| transactions := transactions s; budgets := budgets s;
       categories := categories s; isLoading := b |}).

Definition toast (title description : string) (destructive : bool) : M unit :=
  emit (Toast title description destructive).

Definition console_error (label : string) : M unit :=
  emit (ConsoleError label).

(** [await supabase.from(...)...]: the call is recorded, the oracle replies. *)
Definition await {A} (request : Request) (reply : nat -> Reply A)
  : M (Reply A) :=
  fun w =>
    (Returned (reply (calls w)),
     {| store := store w; calls := S (calls w);
        trace := trace w ++ [Remote request] |}).

(** [if (error) throw error;] *)
Definition orThrow {A} (r : Reply A) : M A :=
  match r with
  | Error e => throw e
  | Data d => ret d
  end.

(** ** The arguments of the three [add] entry points *)

(** [Omit<Transaction, "id">] *)
Module NewTransaction.
Record t : Type := mk
  { amount : float;
    category : string;
    date : string;
    description : string;
    type : TransactionType }.
End NewTransaction.

(** [Omit<Budget, "id" | "spent">] *)
Module NewBudget.
Record t : Type := mk
  { category : string; limit : float; period : Period }.
End NewBudget.

(** [Omit<Category, "id">] *)
Module NewCategory.
Record t : Type := mk
  { name : string; type : CategoryType; color : string }.
End NewCategory.

(** ** The provider

    One render of [FinanceProvider]: [supabase] is the remote store,
    [isoDate s] is [new Date(s).toISOString().split('T')[0]] ([None] when
    [toISOString] throws on an invalid date), [r] is what the render bound. *)

Section FinanceProvider.

Variable supabase : Supabase.
Variable isoDate : string -> option string.
Variable r : Render.

(** [!isAuthenticated || !user] *)
Definition signedOut : bool :=
  negb (isAuthenticated r)
  || match user r with Some _ => false | None => true end.

Definition user_id : string :=
  match user r with Some u => User.id u | None => "" end.

(** [calculateSpentAmount] reads the [transactions] of the render. *)
Definition calculateSpentAmount (category : string) : float :=
  computeSpent (transactions (seen r)) category.

Definition toTransaction (t : TransactionRow) : M Transaction.t :=
  match isoDate (row_date t) with
  | None => throw RangeError
  | Some day =>
      ret {| Transaction.id := row_id t;
             Transaction.amount := row_amount t;
             Transaction.category := row_category t;
             Transaction.date := day;
             Transaction.description :=
               match row_description t with Some d => d | None => "" end;
             Transaction.type := row_type t |}
  end.

Definition toBudget (b : BudgetRow) : Budget.t :=
  {| Budget.id := brow_id b;
     Budget.category := brow_category b;
     Budget.limit := brow_budget_limit b;
     Budget.spent := brow_spent b;
     Budget.period := brow_period b |}.

Definition toCategory (c : CategoryRow) : Category.t :=
  {| Category.id := crow_id c;
     Category.name := crow_name c;
     Category.type := crow_type c;
     Category.color := crow_color c |}.

(** [transactionsData.map(t => ({ ... }))], which stops at the first row
    whose date is invalid. *)
Fixpoint toTransactions (rows : list TransactionRow)
  : M (list Transaction.t) :=
  match rows with
  | [] => ret []
  | t :: rest =>
      tr <- toTransaction t ;;
      trs <- toTransactions rest ;;
      ret (tr :: trs)
  end.

Definition refreshData : M unit :=
  if signedOut then setIsLoading false
  else
    setIsLoading true ;;
    try_finally
      (try_catch
         (transactionsReply <-
            await SelectTransactions (select_transactions supabase) ;;
          transactionsData <- orThrow transactionsReply ;;
          budgetsReply <- await SelectBudgets (select_budgets supabase) ;;
          budgetsData <- orThrow budgetsReply ;;
          categoriesReply <-
            await SelectCategories (select_categories supabase) ;;
          categoriesData <- orThrow categoriesReply ;;
          fetched <- toTransactions transactionsData ;;
          setTransactions (fun _ => fetched) ;;
          setBudgets (fun _ => map toBudget budgetsData) ;;
          setCategories (fun _ => map toCategory categoriesData))
         (fun _ =>
            console_error "Error fetching finance data:" ;;
            toast "Data loading failed"
                  "There was an error loading your financial data" true))
      (setIsLoading false).

(** The callback of [prev.map(...)] in [updateBudgetsAfterTransaction]. *)
Definition addSpent (category : string) (amount : float) (budget : Budget.t)
  : Budget.t :=
  if String.eqb (Budget.category budget) category
  then Budget.with_spent budget (Budget.spent budget + amount)%float
  else budget.

(** [updateBudgetsAfterTransaction] is called without [await]: it runs up to
    the moment it has sent its request, and what it does with the reply
    (returned here) runs after its caller has finished. *)
Definition updateBudgetsAfterTransaction (category : string) (amount : float)
  : M (M unit) :=
  if signedOut then ret (ret tt)
  else
    setBudgets (map (addSpent category amount)) ;;
    match
      find (fun b => String.eqb (Budget.category b) category)
           (budgets (seen r))
    with
    | Some budgetToUpdate =>
        let request :=
          UpdateBudgetSpentByCategory
            (Budget.spent budgetToUpdate + amount)%float category in
        reply <- await request (fun n => mutate supabase n request) ;;
        ret (try_catch
               (orThrow reply)
               (fun _ =>
                  console_error "Error updating budget spent amount:" ;;
                  refreshData))
    | None => ret (ret tt)
    end.

(** The loop [for (const budget of updatedBudgets)] of
    [recalculateBudgets]. *)
Fixpoint persistSpent (updatedBudgets : list Budget.t) : M unit :=
  match updatedBudgets with
  | [] => ret tt
  | budget :: rest =>
      let request :=
        UpdateBudgetById
          {| bupd_category := None; bupd_budget_limit := None;
             bupd_spent := Some (Budget.spent budget); bupd_period := None |}
          (Budget.id budget) in
      reply <- await request (fun n => mutate supabase n request) ;;
      orThrow reply ;;
      persistSpent rest
  end.

(** [recalculateBudgets] maps over the [budgets] of the render. *)
Definition recalculateBudgets : M unit :=
  if signedOut then ret tt
  else
    try_catch
      (let updatedBudgets :=
         map (fun budget =>
                Budget.with_spent budget
                  (calculateSpentAmount (Budget.category budget)))
             (budgets (seen r)) in
       setBudgets (fun _ => updatedBudgets) ;;
       persistSpent updatedBudgets)
      (fun _ =>
         console_error "Error recalculating budgets:" ;;
         toast "Budget update failed"
               "There was an error updating your budget calculations" true).

(** *** Transaction methods *)

(** The object [addTransaction] passes to [insert]. *)
Definition transactionValues (transaction : NewTransaction.t)
  : TransactionInsert :=
  {| ins_user_id := user_id;
     ins_amount := NewTransaction.amount transaction;
     ins_category := NewTransaction.category transaction;
     ins_date := NewTransaction.date transaction;
     ins_description := NewTransaction.description transaction;
     ins_type := NewTransaction.type transaction |}.

(** [addTransaction] returns what [updateBudgetsAfterTransaction] left to run
    later. *)
Definition addTransaction (transaction : NewTransaction.t) : M (M unit) :=
  if signedOut then ret (ret tt)
  else
    try_catch
      (let request := transactionValues transaction in
       reply <-
         await (InsertTransaction request)
               (fun n => insert_transaction supabase n request) ;;
       data <- orThrow reply ;;
       newTransaction <- toTransaction data ;;
       setTransactions (fun prev => newTransaction :: prev) ;;
       later <-
         (if TransactionType_eqb (NewTransaction.type transaction) expense
          then updateBudgetsAfterTransaction
                 (NewTransaction.category transaction)
                 (NewTransaction.amount transaction)
          else ret (ret tt)) ;;
       toast "Transaction added" "Your transaction has been saved" false ;;
       ret later)
      (fun _ =>
         console_error "Error adding transaction:" ;;
         toast "Failed to add transaction"
               "There was an error saving your transaction" true ;;
         ret (ret tt)).

Definition updateTransaction (id : string) (transaction : Transaction.partial)
  : M unit :=
  if signedOut then ret tt
  else
    try_catch
      (let request :=
         UpdateTransactionById
           {| upd_amount := Transaction.amount' transaction;
              upd_category := Transaction.category' transaction;
              upd_date := Transaction.date' transaction;
              upd_description := Transaction.description' transaction;
              upd_type := Transaction.type' transaction |}
           id in
       reply <- await request (fun n => mutate supabase n request) ;;
       orThrow reply ;;
       setTransactions
         (map (fun tr =>
                 if String.eqb (Transaction.id tr) id
                 then Transaction.spread tr transaction
                 else tr)) ;;
       recalculateBudgets ;;
       toast "Transaction updated" "Your transaction has been updated" false)
      (fun _ =>
         console_error "Error updating transaction:" ;;
         toast "Failed to update transaction"
               "There was an error updating your transaction" true).

Definition deleteTransaction (id : string) : M unit :=
  if signedOut then ret tt
  else
    try_catch
      (let request := DeleteTransactionById id in
       reply <- await request (fun n => mutate supabase n request) ;;
       orThrow reply ;;
       setTransactions
         (filter (fun tr => negb (String.eqb (Transaction.id tr) id))) ;;
       recalculateBudgets ;;
       toast "Transaction deleted" "Your transaction has been deleted" false)
      (fun _ =>
         console_error "Error deleting transaction:" ;;
         toast "Failed to delete transaction"
               "There was an error deleting your transaction" true).

(** *** Budget methods *)

(** The object [addBudget] passes to [insert], with the [spent] it
    calculated. *)
Definition budgetValues (budget : NewBudget.t) : BudgetInsert :=
  {| bins_user_id := user_id;
     bins_category := NewBudget.category budget;
     bins_budget_limit := NewBudget.limit budget;
     bins_spent := calculateSpentAmount (NewBudget.category budget);
     bins_period := NewBudget.period budget |}.

Definition addBudget (budget : NewBudget.t) : M unit :=
  if signedOut then ret tt
  else
    try_catch
      (let request := budgetValues budget in
       reply <-
         await (InsertBudget request)
               (fun n => insert_budget supabase n request) ;;
       data <- orThrow reply ;;
       let newBudget := toBudget data in
       setBudgets (fun prev => newBudget :: prev) ;;
       toast "Budget added" "Your budget has been saved" false)
      (fun _ =>
         console_error "Error adding budget:" ;;
         toast "Failed to add budget"
               "There was an error saving your budget" true).

(** [updateData]: [category] and [period] are copied when truthy, [limit]
    and [spent] when not [undefined]. *)
Definition updateData (budget : Budget.partial) : BudgetUpdate :=
  {| bupd_category :=
       match Budget.category' budget with
       | Some c => if String.eqb c "" then None else Some c
       | None => None
       end;
     bupd_budget_limit := Budget.limit' budget;
     bupd_spent := Budget.spent' budget;
     bupd_period := Budget.period' budget |}.

Definition updateBudget (id : string) (budget : Budget.partial) : M unit :=
  if signedOut then ret tt
  else
    try_catch
      (let request := UpdateBudgetById (updateData budget) id in
       reply <- await request (fun n => mutate supabase n request) ;;
       orThrow reply ;;
       setBudgets
         (map (fun b =>
                 if String.eqb (Budget.id b) id
                 then Budget.spread b budget
                 else b)) ;;
       toast "Budget updated" "Your budget has been updated" false)
      (fun _ =>
         console_error "Error updating budget:" ;;
         toast "Failed to update budget"
               "There was an error updating your budget" true).

Definition deleteBudget (id : string) : M unit :=
  if signedOut then ret tt
  else
    try_catch
      (let request := DeleteBudgetById id in
       reply <- await request (fun n => mutate supabase n request) ;;
       orThrow reply ;;
       setBudgets (filter (fun b => negb (String.eqb (Budget.id b) id))) ;;
       toast "Budget deleted" "Your budget has been deleted" false)
      (fun _ =>
         console_error "Error deleting budget:" ;;
         toast "Failed to delete budget"
               "There was an error deleting your budget" true).

(** *** Category methods *)

Definition addCategory (category : NewCategory.t) : M unit :=
  if signedOut then ret tt
  else
    try_catch
      (let request :=
         {| cins_user_id := user_id;
            cins_name := NewCategory.name category;
            cins_type := NewCategory.type category;
            cins_color := NewCategory.color category |} in
       reply <-
         await (InsertCategory request)
               (fun n => insert_category supabase n request) ;;
       data <- orThrow reply ;;
       let newCategory := toCategory data in
       setCategories (fun prev => newCategory :: prev) ;;
       toast "Category added" "Your category has been saved" false)
      (fun _ =>
         console_error "Error adding category:" ;;
         toast "Failed to add category"
               "There was an error saving your category" true).

Definition updateCategory (id : string) (category : Category.partial)
  : M unit :=
  if signedOut then ret tt
  else
    try_catch
      (let request :=
         UpdateCategoryById
           {| cupd_name := Category.name' category;
              cupd_type := Category.type' category;
              cupd_color := Category.color' category |}
           id in
       reply <- await request (fun n => mutate supabase n request) ;;
       orThrow reply ;;
       setCategories
         (map (fun c =>
                 if String.eqb (Category.id c) id
                 then Category.spread c category
                 else c)) ;;
       toast "Category updated" "Your category has been updated" false)
      (fun _ =>
         console_error "Error updating category:" ;;
         toast "Failed to update category"
               "There was an error updating your category" true).

Definition deleteCategory (id : string) : M unit :=
  if signedOut then ret tt
  else
    try_catch
      (let request := DeleteCategoryById id in
       reply <- await request (fun n => mutate supabase n request) ;;
       orThrow reply ;;
       setCategories
         (filter (fun c => negb (String.eqb (Category.id c) id))) ;;
       toast "Category deleted" "Your category has been deleted" false)
      (fun _ =>
         console_error "Error deleting category:" ;;
         toast "Failed to delete category"
               "There was an error deleting your category" true).

End FinanceProvider.

(** ** Running an entry point *)

(** The render of a store: what the provider's functions see once React has
    rendered the component with the cells at [s]. *)
Definition render (s : Store) (authenticated : bool) (u : option User.t)
  : Render :=
  {| seen := s; isAuthenticated := authenticated; user := u |}.

(** The world in which a user action starts: nothing sent, nothing shown. *)
Definition start (s : Store) : World :=
  {| store := s; calls := 0; trace := [] |}.

(** Run an entry point and then what it left to run later. *)
Definition settle (m : M (M unit)) : M unit :=
  later <- m ;; later.

(** A full refresh was started: the first request of [refreshData] is in the
    trace. *)
Definition refreshed (w : World) : Prop :=
  In (Remote SelectTransactions) (trace w).

(** The budgets [recalculateBudgets] writes: those of the render, each with
    the amount spent in the render's ledger. *)
Definition recalculated (r : Render) : list Budget.t :=
  map (fun budget =>
         Budget.with_spent budget
           (computeSpent (transactions (seen r)) (Budget.category budget)))
      (budgets (seen r)).

(** ** The calculator as the specification words it

    "The sum of [amount] over all transactions of the ledger whose type is
    expense and whose category equals the given one", read along the ledger:
    an empty ledger sums to zero, a matching expense at the end of the ledger
    adds its amount, any other transaction adds nothing. *)

Definition countsFor (category : string) (tr : Transaction.t) : Prop :=
  Transaction.type tr = expense /\ Transaction.category tr = category.

Inductive SumOfExpenses (category : string)
  : list Transaction.t -> float -> Prop :=
| sum_empty : SumOfExpenses category [] 0%float
| sum_counted ledger tr total :
    SumOfExpenses category ledger total ->
    countsFor category tr ->
    SumOfExpenses category (ledger ++ [tr])
                  (total + Transaction.amount tr)%float
| sum_skipped ledger tr total :
    SumOfExpenses category ledger total ->
    ~ countsFor category tr ->
    SumOfExpenses category (ledger ++ [tr]) total.

(** ** The value of a double

    Every finite binary64 value is a whole number of units of 2^-1074;
    [exactValue] is that number, and [None] for NaN and the infinities. *)

Definition exactValue (x : float) : option Z :=
  match Prim2SF x with
  | S754_zero _ => Some 0%Z
  | S754_finite s m e =>
      Some ((if s then Z.neg m else Z.pos m) * 2 ^ (e + 1074))%Z
  | S754_infinity _ | S754_nan => None
  end.

(** [total + amount] was computed without rounding. *)
Definition addsExactly (total amount : float) : bool :=
  match exactValue (total + amount), exactValue total, exactValue amount with
  | Some s, Some a, Some b => Z.eqb s (a + b)
  | _, _, _ => false
  end.

(** No addition of the [reduce] over [amounts], started at [total], rounds. *)
Fixpoint sumsExactly (total : float) (amounts : list float) : bool :=
  match amounts with
  | [] => true
  | amount :: rest =>
      addsExactly total amount && sumsExactly (total + amount) rest
  end.

(** No addition [computeSpent] makes on this ledger rounds. *)
Definition noRounding (ledger : list Transaction.t) (category : string)
  : bool :=
  sumsExactly 0
    (map Transaction.amount (filter (spent_filter category) ledger)).


(** ** Ledgers, budgets and remote stores of the scenarios *)

Definition expenseOf (id category : string) (amount : float)
  : Transaction.t :=
  {| Transaction.id := id; Transaction.amount := amount;
     Transaction.category := category; Transaction.date := "2024-01-15";
     Transaction.description := ""; Transaction.type := expense |}.

#[local] Set Warnings "-inexact-float".

(** Three food expenses of 0.1, 0.2 and 0.3, and the same ledger read
    backwards. *)
Definition ledger_up : list Transaction.t :=
  [expenseOf "t1" "Food" 0.1; expenseOf "t2" "Food" 0.2;
   expenseOf "t3" "Food" 0.3].

Definition ledger_down : list Transaction.t :=
  [expenseOf "t3" "Food" 0.3; expenseOf "t2" "Food" 0.2;
   expenseOf "t1" "Food" 0.1].

#[local] Set Warnings "inexact-float".

(** Whole amounts, which add without rounding. *)
Definition ledger_whole : list Transaction.t :=
  [expenseOf "t1" "Food" 50; expenseOf "t2" "Rent" 700;
   expenseOf "t3" "Food" 30].

Definition ledger_whole' : list Transaction.t :=
  [expenseOf "t3" "Food" 30; expenseOf "t1" "Food" 50;
   expenseOf "t2" "Rent" 700].

(** The number of units of 2^-1074 of an amount, 0 when it has none. *)
Definition unitsOf (amount : float) : Z :=
  match exactValue amount with Some z => z | None => 0%Z end.

Definition exactSum (amounts : list float) : Z :=
  fold_right Z.add 0%Z (map unitsOf amounts).

Definition alice : User.t :=
  {| User.id := "u1"; User.name := "Alice"; User.email := "alice@example.org";
     User.notificationsEnabled := true |}.

(** A remote store that accepts every write and returns an inserted row as
    it was sent, under a new identifier. *)
Definition accepting : Supabase :=
  {| insert_transaction := fun _ v =>
       Data {| row_id := "t-new"; row_amount := ins_amount v;
               row_category := ins_category v; row_date := ins_date v;
               row_description := Some (ins_description v);
               row_type := ins_type v |};
     insert_budget := fun _ v =>
       Data {| brow_id := "b-new"; brow_category := bins_category v;
               brow_budget_limit := bins_budget_limit v;
               brow_spent := bins_spent v; brow_period := bins_period v |};
     insert_category := fun _ v =>
       Data {| crow_id := "c-new"; crow_name := cins_name v;
               crow_type := cins_type v; crow_color := cins_color v |};
     mutate := fun _ _ => Data tt;
     select_transactions := fun _ => Data [];
     select_budgets := fun _ => Data [];
     select_categories := fun _ => Data [] |}.

(** A remote store that rejects every call. *)
Definition rejecting : Supabase :=
  {| insert_transaction := fun _ _ => Error (PostgrestError "rejected");
     insert_budget := fun _ _ => Error (PostgrestError "rejected");
     insert_category := fun _ _ => Error (PostgrestError "rejected");
     mutate := fun _ _ => Error (PostgrestError "rejected");
     select_transactions := fun _ => Error (PostgrestError "rejected");
     select_budgets := fun _ => Error (PostgrestError "rejected");
     select_categories := fun _ => Error (PostgrestError "rejected") |}.

(** A remote store that accepts inserts and rejects updates and deletes. *)
Definition rejectingWrites : Supabase :=
  {| insert_transaction := insert_transaction accepting;
     insert_budget := insert_budget accepting;
     insert_category := insert_category accepting;
     mutate := fun _ _ => Error (PostgrestError "rejected");
     select_transactions := fun _ => Data [];
     select_budgets := fun _ => Data [];
     select_categories := fun _ => Data [] |}.

(** Dates as the remote store returns them are already calendar dates. *)
Definition sameDay (date : string) : option string := Some date.

Definition foodBudget (spent : float) : Budget.t :=
  {| Budget.id := "b1"; Budget.category := "Food"; Budget.limit := 200;
     Budget.spent := spent; Budget.period := monthly |}.

Definition rentBudget (spent : float) : Budget.t :=
  {| Budget.id := "b2"; Budget.category := "Rent"; Budget.limit := 1000;
     Budget.spent := spent; Budget.period := monthly |}.

Definition groceries : Category.t :=
  {| Category.id := "c1"; Category.name := "Food";
     Category.type := for_expense; Category.color := "#22C55E" |}.

(** One food expense of 50, a food budget that has counted it and a rent
    budget with nothing spent. *)
Definition store50 : Store :=
  {| transactions := [expenseOf "t1" "Food" 50];
     budgets := [foodBudget 50; rentBudget 0];
     categories := [groceries];
     isLoading := false |}.

(** [store50] after a food expense of 30 was added. *)
Definition store80 : Store :=
  {| transactions := [expenseOf "t2" "Food" 30; expenseOf "t1" "Food" 50];
     budgets := [foodBudget 80; rentBudget 0];
     categories := [groceries];
     isLoading := false |}.

Definition lunch : NewTransaction.t :=
  {| NewTransaction.amount := 30; NewTransaction.category := "Food";
     NewTransaction.date := "2024-01-15"; NewTransaction.description := "";
     NewTransaction.type := expense |}.

Definition salary : NewTransaction.t :=
  {| NewTransaction.amount := 3000; NewTransaction.category := "Food";
     NewTransaction.date := "2024-01-31"; NewTransaction.description := "";
     NewTransaction.type := income |}.

(** The edit of the third scenario: the expense becomes 10 of rent. *)
Definition toRent10 : Transaction.partial :=
  {| Transaction.id' := None; Transaction.amount' := Some 10%float;
     Transaction.category' := Some "Rent";
     Transaction.date' := Some "2024-01-15";
     Transaction.description' := Some "";
     Transaction.type' := Some expense |}.

Definition noBudgetFields : Budget.partial :=
  {| Budget.id' := None; Budget.category' := None; Budget.limit' := None;
     Budget.spent' := None; Budget.period' := None |}.

(** The first scenario: one food expense of 50 and no budget yet. *)
Definition storeNoBudget : Store :=
  {| transactions := [expenseOf "t1" "Food" 50];
     budgets := [];
     categories := [groceries];
     isLoading := false |}.

Definition newFoodBudget : NewBudget.t :=
  {| NewBudget.category := "Food"; NewBudget.limit := 200;
     NewBudget.period := monthly |}.

(** Unfolds the operations of the monad, to run a function of the provider
    on a world. *)
Ltac run :=
  unfold bind, await, try_catch, try_finally, orThrow, throw, ret, toast,
    console_error, emit, setTransactions, setBudgets, setCategories,
    setIsLoading, modify; simpl.

(** ** Further vocabulary for the provider *)

(** At the moment of call number [n] the remote store rejects every write
    with [error]. *)
Definition rejectsAt (sb : Supabase) (n : nat) (error : Exn) : Prop :=
  (forall v, insert_transaction sb n v = Error error)
  /\ (forall v, insert_budget sb n v = Error error)
  /\ (forall v, insert_category sb n v = Error error)
  /\ (forall q, mutate sb n q = Error error).

(** The remote store accepts every update and delete. *)
Definition acceptsWrites (sb : Supabase) : Prop :=
  forall n q, mutate sb n q = Data tt.

(** Every budget of the store has for [spent] what the calculator gives on
    the ledger of the store. *)
Definition consistent (s : Store) : Prop :=
  Forall (fun b =>
            Budget.spent b
            = computeSpent (transactions s) (Budget.category b))
         (budgets s).

(** The transaction [refreshData] and [addTransaction] build from a row
    whose date normalises to [day]. *)
Definition asTransaction (t : TransactionRow) (day : string)
  : Transaction.t :=
  {| Transaction.id := row_id t;
     Transaction.amount := row_amount t;
     Transaction.category := row_category t;
     Transaction.date := day;
     Transaction.description :=
       match row_description t with Some d => d | None => "" end;
     Transaction.type := row_type t |}.

(** The request [recalculateBudgets] sends for one budget. *)
Definition spentWrite (budget : Budget.t) : Request :=
  UpdateBudgetById
    {| bupd_category := None; bupd_budget_limit := None;
       bupd_spent := Some (Budget.spent budget); bupd_period := None |}
    (Budget.id budget).

(** From [w] to [w'] one request was sent and the store was not touched. *)
Definition oneCallNoChange (w w' : World) : Prop :=
  store w' = store w /\ calls w' = S (calls w).




(** The edit of a budget that moves it to the rent category. *)
Definition toRentCategory : Budget.partial :=
  {| Budget.id' := None; Budget.category' := Some "Rent";
     Budget.limit' := Some 200%float; Budget.spent' := None;
     Budget.period' := Some monthly |}.

Definition newTravel : NewCategory.t :=
  {| NewCategory.name := "Travel"; NewCategory.type := for_expense;
     NewCategory.color := "#0EA5E9" |}.

(** ** The pages that use the provider *)

(** *** [TransactionsPage]: pages of the sorted list *)

(** [array.slice(start, stop)] for indices that are not negative. *)
Definition slice {A} (start stop : nat) (l : list A) : list A :=
  firstn (stop - start) (skipn start l).

Definition itemsPerPage : nat := 10.

(** [sortedTransactions.slice((currentPage - 1) * itemsPerPage,
                               currentPage * itemsPerPage)] *)
Definition paginatedTransactions {A} (sortedTransactions : list A)
           (currentPage : nat) : list A :=
  slice ((currentPage - 1) * itemsPerPage) (currentPage * itemsPerPage)
        sortedTransactions.

(** [Math.ceil(sortedTransactions.length / itemsPerPage)]: the quotient of
    an array length by ten, rounded up to a whole number. *)
Definition totalPages {A} (sortedTransactions : list A) : nat :=
  (length sortedTransactions + (itemsPerPage - 1)) / itemsPerPage.

(** The three ways the page changes: the "previous" link, the "next" link
    and the link of page [i + 1], shown for [i] below [totalPages]. *)
Inductive PageClick : Type :=
| Previous
| Next
| Link (i : nat).

Definition clickPage (pages currentPage : nat) (click : PageClick) : nat :=
  match click with
  | Previous => if Nat.ltb 1 currentPage then currentPage - 1 else currentPage
  | Next => if Nat.ltb currentPage pages then currentPage + 1 else currentPage
  | Link i => i + 1
  end.

(** *** [BudgetsPage]: budgets grouped by period *)

Definition Period_eqb (a b : Period) : bool :=
  match a, b with
  | weekly, weekly | monthly, monthly | yearly, yearly => true
  | _, _ => false
  end.

(** The object [groups], as its entries in the order the keys were
    created. *)
Definition Groups : Type := list (Period * list Budget.t).

(** [groups[period].push(budget)] on an existing key. *)
Fixpoint pushTo (period : Period) (budget : Budget.t) (groups : Groups)
  : Groups :=
  match groups with
  | [] => []
  | (p, g) :: rest =>
      if Period_eqb p period then (p, g ++ [budget]) :: rest
      else (p, g) :: pushTo period budget rest
  end.

Definition hasKey (period : Period) (groups : Groups) : bool :=
  existsb (fun entry => Period_eqb (fst entry) period) groups.

(** The callback of [budgets.reduce]: a key that is missing is created
    with an empty array, then the budget is pushed. *)
Definition groupStep (groups : Groups) (budget : Budget.t) : Groups :=
  let period := Budget.period budget in
  pushTo period budget
         (if hasKey period groups then groups else groups ++ [(period, [])]).

Definition groupedBudgets (budgets : list Budget.t) : Groups :=
  fold_left groupStep budgets [].

Definition ofPeriod (period : Period) (budgets : list Budget.t)
  : list Budget.t :=
  filter (fun b => Period_eqb (Budget.period b) period) budgets.

(** [groups[period]], [None] for [undefined]. *)
Definition lookupGroup (period : Period) (groups : Groups)
  : option (list Budget.t) :=
  match find (fun entry => Period_eqb (fst entry) period) groups with
  | Some entry => Some (snd entry)
  | None => None
  end.

(** *** The dialogs *)

(** The form of [TransactionDialog]. *)
Record TransactionForm : Type :=
  { form_amount : string;
    form_category : string;
    form_date : string;
    form_description : string;
    form_type : TransactionType }.

(** The form of [BudgetDialog]. *)
Record BudgetForm : Type :=
  { bform_category : string;
    bform_limit : string;
    bform_period : Period }.

(** What [handleSubmit] of [TransactionDialog] does after clearing the
    error: it sets an error and stops, or it calls the provider and closes
    the dialog. *)
Inductive TransactionSubmit : Type :=
| TransactionError (error : string)
| CallUpdateTransaction (id : string) (fields : Transaction.partial)
| CallAddTransaction (transaction : NewTransaction.t).

Inductive BudgetSubmit : Type :=
| BudgetError (error : string)
| CallUpdateBudget (id : string) (fields : Budget.partial)
| CallAddBudget (budget : NewBudget.t).

(** What [handleAddNewCategory] does: it sets an error and stops, or it
    calls [addCategory] and selects the new name in the form. *)
Inductive CategorySubmit : Type :=
| CategoryError (error : string)
| CallAddCategory (category : NewCategory.t).

(** [!s] for a string. *)
Definition isEmpty (s : string) : bool := String.eqb s "".

Section Dialogs.

(** The functions of the JavaScript library the dialogs call. *)
Variable parseFloat : string -> float.
Variable toLowerCase : string -> string.
Variable trim : string -> string.

(** [handleSubmit] of [TransactionDialog]; [transaction] is the prop,
    [null] for a new transaction. *)
Definition submitTransaction (formData : TransactionForm)
           (transaction : option Transaction.t) : TransactionSubmit :=
  if isEmpty (form_amount formData) || isEmpty (form_category formData)
     || isEmpty (form_date formData)
  then TransactionError "Amount, category, and date are required"
  else
    let amount := parseFloat (form_amount formData) in
    if PrimFloat.is_nan amount || PrimFloat.leb amount 0
    then TransactionError "Amount must be a positive number"
    else
      match transaction with
      | Some tr =>
          CallUpdateTransaction
            (Transaction.id tr)
            {| Transaction.id' := None;
               Transaction.amount' := Some amount;
               Transaction.category' := Some (form_category formData);
               Transaction.date' := Some (form_date formData);
               Transaction.description' := Some (form_description formData);
               Transaction.type' := Some (form_type formData) |}
      | None =>
          CallAddTransaction
            {| NewTransaction.amount := amount;
               NewTransaction.category := form_category formData;
               NewTransaction.date := form_date formData;
               NewTransaction.description := form_description formData;
               NewTransaction.type := form_type formData |}
      end.

(** [handleSubmit] of [BudgetDialog]; [budget] is the prop, [null] for a
    new budget. *)
Definition submitBudget (formData : BudgetForm) (budget : option Budget.t)
  : BudgetSubmit :=
  if isEmpty (bform_category formData) || isEmpty (bform_limit formData)
  then BudgetError "Category and limit are required"
  else
    let limit := parseFloat (bform_limit formData) in
    if PrimFloat.is_nan limit || PrimFloat.leb limit 0
    then BudgetError "Limit must be a positive number"
    else
      match budget with
      | Some b =>
          CallUpdateBudget
            (Budget.id b)
            {| Budget.id' := None;
               Budget.category' := Some (bform_category formData);
               Budget.limit' := Some limit;
               Budget.spent' := None;
               Budget.period' := Some (bform_period formData) |}
      | None =>
          CallAddBudget
            {| NewBudget.category := bform_category formData;
               NewBudget.limit := limit;
               NewBudget.period := bform_period formData |}
      end.

(** [handleAddNewCategory] of the two dialogs: [type] is ["expense"] in
    [BudgetDialog] and the form's type in [TransactionDialog], [color] is
    what [generateRandomColor()] returns. *)
Definition handleAddNewCategory (categories : list Category.t)
           (newCategory : string) (type : CategoryType) (color : string)
  : CategorySubmit :=
  if isEmpty (trim newCategory)
  then CategoryError "Category name cannot be empty"
  else if existsb
            (fun cat => String.eqb (toLowerCase (Category.name cat))
                                   (toLowerCase newCategory))
            categories
  then CategoryError "Category already exists"
  else CallAddCategory
         {| NewCategory.name := newCategory; NewCategory.type := type;
            NewCategory.color := color |}.

(** No two categories have the same name up to case. *)
Definition distinctNames (categories : list Category.t) : Prop :=
  NoDup (map (fun cat => toLowerCase (Category.name cat)) categories).

End Dialogs.

(** A form of [TransactionDialog] and one of [BudgetDialog], with a
    [parseFloat] that reads the two numbers they hold. *)
Definition lunchForm : TransactionForm :=
  {| form_amount := "30"; form_category := "Food";
     form_date := "2024-01-15"; form_description := "";
     form_type := expense |}.

Definition rentForm : BudgetForm :=
  {| bform_category := "Rent"; bform_limit := "200";
     bform_period := monthly |}.

Definition parseTwoNumbers (s : string) : float :=
  if String.eqb s "30" then 30%float
  else if String.eqb s "200" then 200%float
  else nan.

(** A lower-casing of the letters F and T, enough for the names used
    here. *)
Definition lowerFT (s : string) : string :=
  if String.eqb s "Food" then "food"
  else if String.eqb s "Travel" then "travel"
  else s.
(** * Properties of the calculator *)

Lemma TransactionType_eqb_eq (a b : TransactionType) :
  TransactionType_eqb a b = true <-> a = b.
Proof. destruct a, b; simpl; split; congruence. Qed.

Lemma spent_filter_countsFor (category : string) (tr : Transaction.t) :
  spent_filter category tr = true <-> countsFor category tr.
Proof.
  unfold spent_filter, countsFor.
  rewrite andb_true_iff, String.eqb_eq, TransactionType_eqb_eq.
  tauto.
Qed.

Lemma computeSpent_snoc (ledger : list Transaction.t) (tr : Transaction.t)
      (category : string) :
  computeSpent (ledger ++ [tr]) category =
  if spent_filter category tr
  then (computeSpent ledger category + Transaction.amount tr)%float
  else computeSpent ledger category.
Proof.
  unfold computeSpent.
  rewrite filter_app. simpl.
  destruct (spent_filter category tr).
  - now rewrite fold_left_app.
  - now rewrite app_nil_r.
Qed.

Lemma SumOfExpenses_computeSpent (category : string)
      (ledger : list Transaction.t) :
  SumOfExpenses category ledger (computeSpent ledger category).
Proof.
  induction ledger as [|tr ledger IH] using rev_ind.
  - constructor.
  - rewrite computeSpent_snoc.
    destruct (spent_filter category tr) eqn:E.
    + apply sum_counted; [exact IH | now apply spent_filter_countsFor].
    + apply sum_skipped; [exact IH |].
      intro H. apply spent_filter_countsFor in H. congruence.
Qed.

Lemma SumOfExpenses_unique (category : string) (ledger : list Transaction.t)
      (total : float) :
  SumOfExpenses category ledger total -> total = computeSpent ledger category.
Proof.
  induction 1 as [|ledger tr total _ IH Hc|ledger tr total _ IH Hc].
  - reflexivity.
  - rewrite computeSpent_snoc.
    apply spent_filter_countsFor in Hc. rewrite Hc. now rewrite IH.
  - rewrite computeSpent_snoc.
    destruct (spent_filter category tr) eqn:E; [|exact IH].
    apply spent_filter_countsFor in E. contradiction.
Qed.

Lemma filter_none {A} (f : A -> bool) (l : list A) :
  (forall x, In x l -> f x = false) -> filter f l = [].
Proof.
  induction l as [|a l IH]; simpl; intro H; [reflexivity|].
  rewrite (H a) by now left.
  apply IH. intros x Hx. apply H. now right.
Qed.

(** C5. For every ledger and category, [computeSpent] is the sum of the
    amounts of exactly the transactions whose type is expense and whose
    category is the given string, character for character: it is the one
    value the specification's sum relates to the ledger, the transactions it
    adds are those that satisfy the two equalities, and it is 0 when none
    does.  It is a function of the ledger and the category alone: it neither
    reads nor writes the world of the provider. *)
Theorem computeSpent_sums_matching_expenses :
  forall (ledger : list Transaction.t) (category : string),
    (forall total,
        SumOfExpenses category ledger total <->
        total = computeSpent ledger category)
    /\ (forall tr,
           In tr (filter (spent_filter category) ledger) <->
           In tr ledger /\ Transaction.type tr = expense
           /\ Transaction.category tr = category)
    /\ ((forall tr, In tr ledger -> ~ countsFor category tr) ->
        computeSpent ledger category = 0%float)
    /\ (forall (r : Render) (w : World),
           transactions (seen r) = ledger ->
           ret (calculateSpentAmount r category) w =
           (Returned (computeSpent ledger category), w)).
Proof.
  intros ledger category. split; [|split; [|split]].
  - intro total. split.
    + apply SumOfExpenses_unique.
    + intros ->. apply SumOfExpenses_computeSpent.
  - intro tr. rewrite filter_In, spent_filter_countsFor.
    unfold countsFor. tauto.
  - intro Hnone. unfold computeSpent.
    rewrite filter_none; [reflexivity|].
    intros tr Hin. destruct (spent_filter category tr) eqn:E; [|reflexivity].
    apply spent_filter_countsFor in E. now apply Hnone in E.
  - intros r w <-. reflexivity.
Qed.

(** The comparison of categories is that of [===]: "food" is not "Food",
    and an income of the category is not counted. *)
Lemma computeSpent_is_case_sensitive :
  computeSpent
    [expenseOf "t1" "food" 5; expenseOf "t2" "Food" 7;
     {| Transaction.id := "t3"; Transaction.amount := 9;
        Transaction.category := "Food"; Transaction.date := "2024-01-15";
        Transaction.description := ""; Transaction.type := income |}]
    "Food"
  = 7%float.
Proof. reflexivity. Qed.

(** ** Order of the ledger *)

Lemma fold_left_amounts (l : list Transaction.t) (total : float) :
  fold_left (fun total tr => (total + Transaction.amount tr)%float) l total =
  fold_left PrimFloat.add (map Transaction.amount l) total.
Proof.
  revert total. induction l as [|tr l IH]; intro total; simpl;
    [reflexivity | apply IH].
Qed.

Lemma Permutation_filter' {A} (f : A -> bool) (l1 l2 : list A) :
  Permutation l1 l2 -> Permutation (filter f l1) (filter f l2).
Proof.
  induction 1 as [|x l l' _ IH|x y l|l l' l'' _ IH1 _ IH2]; simpl.
  - constructor.
  - destruct (f x); [now constructor | exact IH].
  - destruct (f x), (f y); try reflexivity. constructor.
  - now transitivity (filter f l').
Qed.

Lemma exactSum_Permutation (l1 l2 : list float) :
  Permutation l1 l2 -> exactSum l1 = exactSum l2.
Proof.
  unfold exactSum.
  induction 1 as [|x l l' _ IH|x y l|l l' l'' _ IH1 _ IH2]; simpl; lia.
Qed.

Lemma sumsExactly_value (amounts : list float) :
  forall (total : float) (v : Z),
    exactValue total = Some v ->
    sumsExactly total amounts = true ->
    exactValue (fold_left PrimFloat.add amounts total)
    = Some (v + exactSum amounts)%Z.
Proof.
  induction amounts as [|a amounts IH]; intros total v Hv Hex; simpl in *.
  - rewrite Hv. f_equal. unfold exactSum. simpl. lia.
  - apply andb_true_iff in Hex. destruct Hex as [Hstep Hrest].
    unfold addsExactly in Hstep. rewrite Hv in Hstep.
    destruct (exactValue (total + a)) as [s|] eqn:Es; [|discriminate].
    destruct (exactValue a) as [b|] eqn:Ea; [|discriminate].
    apply Z.eqb_eq in Hstep. subst s.
    rewrite (IH _ _ Es Hrest). f_equal.
    unfold exactSum. simpl. unfold unitsOf at 2. rewrite Ea.
    fold (exactSum amounts). lia.
Qed.

Lemma computeSpent_exactValue (ledger : list Transaction.t)
      (category : string) :
  noRounding ledger category = true ->
  exactValue (computeSpent ledger category)
  = Some (exactSum
            (map Transaction.amount (filter (spent_filter category) ledger))).
Proof.
  intro H. unfold computeSpent. rewrite fold_left_amounts.
  now rewrite (sumsExactly_value _ 0%float 0%Z eq_refl H).
Qed.

(** *** Two doubles with the same value

    The kernel's doubles are canonical: a value has one mantissa and one
    exponent, so two finite doubles of the same value are [===]-equal, and
    the same double unless they are the two zeros. *)

Lemma digits2_pos_size (m : positive) : digits2_pos m = Pos.size m.
Proof. induction m; simpl; congruence. Qed.

Lemma digits2_pos_log2 (m : positive) :
  Z.pos (digits2_pos m) = (Z.log2 (Z.pos m) + 1)%Z.
Proof.
  rewrite digits2_pos_size.
  destruct m; simpl; try reflexivity; now rewrite Pos.add_1_r.
Qed.

Lemma finite_exponent_min (s : bool) (m : positive) (e : Z) :
  valid_binary (S754_finite s m e) = true -> (-1074 <= e)%Z.
Proof.
  simpl. unfold bounded, canonical_mantissa, fexp, SpecFloat.emin.
  intro H. apply andb_true_iff in H. destruct H as [H _].
  apply Z.eqb_eq in H. unfold prec, emax in H. lia.
Qed.

Lemma canonical_unique (m1 m2 : positive) (e1 e2 : Z) :
  canonical_mantissa prec emax m1 e1 = true ->
  canonical_mantissa prec emax m2 e2 = true ->
  (Z.pos m1 * 2 ^ (e1 + 1074) = Z.pos m2 * 2 ^ (e2 + 1074))%Z ->
  m1 = m2 /\ e1 = e2.
Proof.
  unfold canonical_mantissa, fexp, SpecFloat.emin, prec, emax.
  rewrite !digits2_pos_log2, !Z.eqb_eq. intros C1 C2 E.
  assert (L1 : (-1074 <= e1)%Z) by lia.
  assert (L2 : (-1074 <= e2)%Z) by lia.
  assert (D : (Z.log2 (Z.pos m1) + e1 = Z.log2 (Z.pos m2) + e2)%Z).
  { apply (f_equal Z.log2) in E.
    rewrite !Z.log2_mul_pow2 in E by lia. lia. }
  assert (e1 = e2) by lia. subst e2. split; [|reflexivity].
  apply Z.mul_cancel_r in E; [congruence|].
  apply Z.pow_nonzero; lia.
Qed.

Lemma SFeqb_refl_finite (s : bool) (m : positive) (e : Z) :
  SFeqb (S754_finite s m e) (S754_finite s m e) = true.
Proof.
  unfold SFeqb, SFcompare.
  rewrite Z.compare_refl.
  change (Pos.compare_cont Eq m m) with (Pos.compare m m).
  rewrite Pos.compare_refl. now destruct s.
Qed.

Lemma exactValue_same (x y : float) (v : Z) :
  exactValue x = Some v -> exactValue y = Some v ->
  PrimFloat.eqb x y = true /\ (v <> 0%Z -> x = y).
Proof.
  unfold exactValue. intros Hx Hy. rewrite eqb_spec.
  pose proof (Prim2SF_valid x) as Vx. pose proof (Prim2SF_valid y) as Vy.
  assert (P : forall (s : bool) m e, (-1074 <= e)%Z ->
            ((if s then Z.neg m else Z.pos m) * 2 ^ (e + 1074) <> 0)%Z).
  { intros s m e L. apply Z.neq_mul_0. split; [now destruct s|].
    apply Z.pow_nonzero; lia. }
  destruct (Prim2SF x) as [sx|sx| |sx mx ex] eqn:Ex; try discriminate;
    destruct (Prim2SF y) as [sy|sy| |sy my ey] eqn:Ey; try discriminate.
  - split; [reflexivity | congruence].
  - exfalso. apply (P sy my ey); [now apply finite_exponent_min in Vy|].
    congruence.
  - exfalso. apply (P sx mx ex); [now apply finite_exponent_min in Vx|].
    congruence.
  - pose proof (finite_exponent_min _ _ _ Vx) as Lx.
    pose proof (finite_exponent_min _ _ _ Vy) as Ly.
    simpl in Vx, Vy. unfold bounded in Vx, Vy.
    apply andb_true_iff in Vx, Vy. destruct Vx as [Cx _], Vy as [Cy _].
    assert (0 < 2 ^ (ex + 1074))%Z by (apply Z.pow_pos_nonneg; lia).
    assert (0 < 2 ^ (ey + 1074))%Z by (apply Z.pow_pos_nonneg; lia).
    assert (Hy' : ((if sy then Z.neg my else Z.pos my) * 2 ^ (ey + 1074)
                   = (if sx then Z.neg mx else Z.pos mx) * 2 ^ (ex + 1074))%Z)
      by congruence.
    clear Hx Hy. rename Hy' into Hy.
    assert (sx = sy) as <-.
    { destruct sx, sy; try reflexivity; exfalso.
      - assert (Z.neg mx * 2 ^ (ex + 1074) < 0)%Z by (apply Z.mul_neg_pos; lia).
        assert (0 < Z.pos my * 2 ^ (ey + 1074))%Z by (apply Z.mul_pos_pos; lia).
        lia.
      - assert (Z.neg my * 2 ^ (ey + 1074) < 0)%Z by (apply Z.mul_neg_pos; lia).
        assert (0 < Z.pos mx * 2 ^ (ex + 1074))%Z by (apply Z.mul_pos_pos; lia).
        lia. }
    assert (E : (Z.pos my * 2 ^ (ey + 1074) = Z.pos mx * 2 ^ (ex + 1074))%Z).
    { destruct sx; [|exact Hy].
      change (Z.neg my) with (- Z.pos my)%Z in Hy.
      change (Z.neg mx) with (- Z.pos mx)%Z in Hy. lia. }
    destruct (canonical_unique _ _ _ _ Cy Cx E) as [-> ->].
    split; [apply SFeqb_refl_finite|].
    intros _. apply Prim2SF_inj. congruence.
Qed.

Lemma finite_value_nonzero (s : bool) (m : positive) (e : Z) :
  valid_binary (S754_finite s m e) = true ->
  ((if s then Z.neg m else Z.pos m) * 2 ^ (e + 1074) <> 0)%Z.
Proof.
  intro V. apply finite_exponent_min in V.
  apply Z.neq_mul_0. split; [now destruct s|].
  apply Z.pow_nonzero; lia.
Qed.

(** *** Exact sums do not produce the negative zero *)

Lemma shl_align_value (m : positive) (e e' : Z) :
  (-1074 <= e' <= e)%Z ->
  (Z.pos (fst (shl_align m e e')) * 2 ^ (e' + 1074)
   = Z.pos m * 2 ^ (e + 1074))%Z.
Proof.
  intro H. unfold shl_align.
  destruct (e' - e)%Z as [|d|d] eqn:D; simpl fst.
  - replace e' with e by lia. reflexivity.
  - pose proof (Pos2Z.is_pos d). lia.
  - change (Pos.iter xO m d) with (shift_pos d m).
    rewrite shift_pos_correct, Z.pow_pos_fold.
    change (Z.neg d) with (- Z.pos d)%Z in D.
    replace (e + 1074)%Z with (Z.pos d + (e' + 1074))%Z by lia.
    pose proof (Pos2Z.is_pos d).
    rewrite (Z.pow_add_r 2 (Z.pos d) (e' + 1074)) by lia. ring.
Qed.

Lemma addsExactly_keeps_positive_zero (x a : float) :
  Prim2SF x <> S754_zero true ->
  addsExactly x a = true ->
  Prim2SF (x + a) <> S754_zero true.
Proof.
  unfold addsExactly, exactValue. rewrite add_spec.
  pose proof (Prim2SF_valid x) as Vx. pose proof (Prim2SF_valid a) as Va.
  intros H0 H.
  destruct (Prim2SF x) as [sx|sx| |sx mx ex];
    destruct (Prim2SF a) as [sa|sa| |sa ma ea];
    try (simpl in H; discriminate H);
    try (simpl; discriminate).
  - destruct sx, sa; simpl; congruence.
  - destruct sx, sa; simpl in H; discriminate H.
  - clear H0. revert H.
    apply finite_exponent_min in Vx, Va.
    unfold SF64add, SFadd.
    pose proof (shl_align_value mx ex (Z.min ex ea)) as Ax.
    pose proof (shl_align_value ma ea (Z.min ex ea)) as Aa.
    destruct (cond_Zopp sx (Z.pos (fst (shl_align mx ex (Z.min ex ea))))
              + cond_Zopp sa (Z.pos (fst (shl_align ma ea (Z.min ex ea)))))%Z
      as [|m|m] eqn:Zs; simpl binary_normalize; [discriminate| |];
      intros H R; rewrite R in H; apply Z.eqb_eq in H;
      assert (P : (0 < 2 ^ (Z.min ex ea + 1074))%Z)
        by (apply Z.pow_pos_nonneg; lia);
      specialize (Ax ltac:(lia)); specialize (Aa ltac:(lia));
      destruct sx, sa; unfold cond_Zopp in Zs;
      change (Z.neg mx) with (- Z.pos mx)%Z in H;
      change (Z.neg ma) with (- Z.pos ma)%Z in H; nia.
Qed.

Lemma sumsExactly_keeps_positive_zero (amounts : list float) :
  forall total : float,
    Prim2SF total <> S754_zero true ->
    sumsExactly total amounts = true ->
    Prim2SF (fold_left PrimFloat.add amounts total) <> S754_zero true.
Proof.
  induction amounts as [|a amounts IH]; intros total H0 Hex; simpl in *.
  - exact H0.
  - apply andb_true_iff in Hex. destruct Hex as [Hstep Hrest].
    apply IH; [|exact Hrest].
    now apply addsExactly_keeps_positive_zero.
Qed.

Lemma same_value_same_double (x y : float) (v : Z) :
  exactValue x = Some v ->
  exactValue y = Some v ->
  Prim2SF x <> S754_zero true ->
  Prim2SF y <> S754_zero true ->
  x = y.
Proof.
  intros Hx Hy Nx Ny.
  destruct (Z.eq_dec v 0) as [->|Hv];
    [|exact (proj2 (exactValue_same x y v Hx Hy) Hv)].
  apply Prim2SF_inj.
  pose proof (Prim2SF_valid x) as Vx. pose proof (Prim2SF_valid y) as Vy.
  unfold exactValue in Hx, Hy.
  destruct (Prim2SF x) as [sx|sx| |sx mx ex]; try discriminate;
    [|exfalso; apply (finite_value_nonzero _ _ _ Vx); congruence].
  destruct (Prim2SF y) as [sy|sy| |sy my ey]; try discriminate;
    [|exfalso; apply (finite_value_nonzero _ _ _ Vy); congruence].
  destruct sx, sy; congruence.
Qed.

(** C6 does not hold as stated.  The ledger with the food expenses 0.1,
    0.2, 0.3 and the same ledger read backwards are permutations of each
    other, and [computeSpent] gives 0.6000000000000001 on the first and 0.6
    on the second: the two doubles are different, also for [===]. *)
Lemma computeSpent_depends_on_order :
  Permutation ledger_up ledger_down
  /\ computeSpent ledger_up "Food" <> computeSpent ledger_down "Food"
  /\ PrimFloat.eqb (computeSpent ledger_up "Food")
                   (computeSpent ledger_down "Food") = false.
Proof.
  split; [|split].
  - change ledger_down with (rev ledger_up). apply Permutation_rev.
  - intro H.
    assert (E : PrimFloat.ltb (computeSpent ledger_down "Food")
                              (computeSpent ledger_up "Food") = true)
      by (vm_compute; reflexivity).
    rewrite H in E. vm_compute in E. discriminate.
  - vm_compute. reflexivity.
Qed.

(** C6, amended.  [computeSpent] is a function, so a repeated call on the
    same ledger and category returns the same value and leaves the world as
    it is.  For a permutation of the ledger: the amounts it adds are a
    permutation of the amounts added before; the result is the same double
    when the matching expenses keep their relative order; and when no
    addition rounds, on either ledger, the two results are the same
    double, hence [===]-equal. *)
Theorem computeSpent_permutation :
  forall (l1 l2 : list Transaction.t) (category : string),
    Permutation l1 l2 ->
    (forall (r : Render) (w : World),
        (first <- ret (calculateSpentAmount r category) ;;
         second <- ret (calculateSpentAmount r category) ;;
         ret (first, second)) w
        = (Returned (calculateSpentAmount r category,
                     calculateSpentAmount r category), w))
    /\ Permutation
         (map Transaction.amount (filter (spent_filter category) l1))
         (map Transaction.amount (filter (spent_filter category) l2))
    /\ (filter (spent_filter category) l1 = filter (spent_filter category) l2
        -> computeSpent l1 category = computeSpent l2 category)
    /\ (noRounding l1 category = true ->
        noRounding l2 category = true ->
        computeSpent l1 category = computeSpent l2 category
        /\ PrimFloat.eqb (computeSpent l1 category)
                         (computeSpent l2 category) = true).
Proof.
  intros l1 l2 category HP.
  assert (HA : Permutation
                 (map Transaction.amount (filter (spent_filter category) l1))
                 (map Transaction.amount (filter (spent_filter category) l2)))
    by now apply Permutation_map, Permutation_filter'.
  split; [|split; [|split]].
  - reflexivity.
  - exact HA.
  - unfold computeSpent. now intros ->.
  - intros E1 E2.
    pose proof (computeSpent_exactValue _ _ E1) as V1.
    pose proof (computeSpent_exactValue _ _ E2) as V2.
    rewrite <- (exactSum_Permutation _ _ HA) in V2.
    split; [|exact (proj1 (exactValue_same _ _ _ V1 V2))].
    apply (same_value_same_double _ _ _ V1 V2);
      unfold computeSpent; rewrite fold_left_amounts;
      apply sumsExactly_keeps_positive_zero;
      solve [assumption | vm_compute; discriminate].
Qed.

Lemma computeSpent_permutation_witness :
  Permutation ledger_whole' ledger_whole
  /\ noRounding ledger_whole' "Food" = true
  /\ noRounding ledger_whole "Food" = true
  /\ computeSpent ledger_whole' "Food" = computeSpent ledger_whole "Food".
Proof.
  assert (HP : Permutation ledger_whole' ledger_whole).
  { exact (Permutation_cons_app
             [expenseOf "t1" "Food" 50; expenseOf "t2" "Rent" 700] []
             (expenseOf "t3" "Food" 30) (Permutation_refl _)). }
  split; [exact HP|].
  split; [vm_compute; reflexivity|].
  split; [vm_compute; reflexivity|].
  apply (computeSpent_permutation ledger_whole' ledger_whole "Food" HP);
    vm_compute; reflexivity.
Defined.

(** * Properties of the provider *)

(** ** What the helpers leave alone *)

Lemma persistSpent_store (sb : Supabase) (updatedBudgets : list Budget.t) :
  forall w, store (snd (persistSpent sb updatedBudgets w)) = store w.
Proof.
  induction updatedBudgets as [|budget rest IH]; intro w; simpl.
  - reflexivity.
  - run. destruct (mutate sb (calls w) _); simpl; [reflexivity|].
    now rewrite IH.
Qed.

Lemma recalculateBudgets_returns (sb : Supabase) (r : Render) (w : World) :
  fst (recalculateBudgets sb r w) = Returned tt.
Proof.
  unfold recalculateBudgets. destruct (signedOut r); [reflexivity|].
  run. destruct (persistSpent sb _ _) as [[[]|e] w']; reflexivity.
Qed.

Lemma recalculateBudgets_store (sb : Supabase) (r : Render) (w : World) :
  store (snd (recalculateBudgets sb r w)) =
  if signedOut r then store w
  else {| transactions := transactions (store w);
          budgets := recalculated r;
          categories := categories (store w);
          isLoading := isLoading (store w) |}.
Proof.
  unfold recalculateBudgets. destruct (signedOut r); [reflexivity|].
  run.
  match goal with
  | |- context [persistSpent sb ?l ?w0] =>
      pose proof (persistSpent_store sb l w0) as H;
      destruct (persistSpent sb l w0) as [[[]|e] w']
  end; simpl in *; exact H.
Qed.

Lemma recalculateBudgets_transactions (sb : Supabase) (r : Render)
      (w : World) :
  transactions (store (snd (recalculateBudgets sb r w)))
  = transactions (store w).
Proof.
  rewrite recalculateBudgets_store. now destruct (signedOut r).
Qed.

Lemma map_unless_found {A} (key : A -> string) (id : string) (f : A -> A)
      (l : list A) :
  ~ In id (map key l) ->
  map (fun x => if String.eqb (key x) id then f x else x) l = l.
Proof.
  induction l as [|a l IH]; simpl; intro H; [reflexivity|].
  destruct (String.eqb_spec (key a) id) as [E|_]; [tauto|].
  f_equal. apply IH. tauto.
Qed.

Lemma filter_unless_found {A} (key : A -> string) (id : string)
      (l : list A) :
  ~ In id (map key l) ->
  filter (fun x => negb (String.eqb (key x) id)) l = l.
Proof.
  induction l as [|a l IH]; simpl; intro H; [reflexivity|].
  destruct (String.eqb_spec (key a) id) as [E|_]; [tauto|]. simpl.
  f_equal. apply IH. tauto.
Qed.

Lemma signedOut_iff (r : Render) :
  signedOut r = true <-> isAuthenticated r = false \/ user r = None.
Proof.
  unfold signedOut. destruct (isAuthenticated r), (user r); simpl;
    intuition congruence.
Qed.

(** ** Entry points that change nothing *)

(** C8. With no authenticated user ([isAuthenticated] false or no [user])
    each of the nine mutation entry points returns at once: the world is the
    one it was called in (same transactions, budgets and categories, no
    request sent, nothing shown) and nothing is thrown. *)
Theorem signed_out_mutations_do_nothing :
  forall (sb : Supabase) (isoDate : string -> option string) (r : Render),
    isAuthenticated r = false \/ user r = None ->
    forall w : World,
      (forall transaction,
          settle (addTransaction sb isoDate r transaction) w
          = (Returned tt, w))
      /\ (forall id transaction,
             updateTransaction sb r id transaction w = (Returned tt, w))
      /\ (forall id, deleteTransaction sb r id w = (Returned tt, w))
      /\ (forall budget, addBudget sb r budget w = (Returned tt, w))
      /\ (forall id budget, updateBudget sb r id budget w = (Returned tt, w))
      /\ (forall id, deleteBudget sb r id w = (Returned tt, w))
      /\ (forall category, addCategory sb r category w = (Returned tt, w))
      /\ (forall id category,
             updateCategory sb r id category w = (Returned tt, w))
      /\ (forall id, deleteCategory sb r id w = (Returned tt, w)).
Proof.
  intros sb isoDate r H w. apply signedOut_iff in H.
  unfold settle, addTransaction, updateTransaction, deleteTransaction,
    addBudget, updateBudget, deleteBudget, addCategory, updateCategory,
    deleteCategory.
  rewrite H. repeat split.
Qed.

Lemma signed_out_mutations_do_nothing_witness :
  settle (addTransaction accepting sameDay (render store50 false (Some alice))
                         lunch) (start store50)
  = (Returned tt, start store50)
  /\ deleteTransaction accepting (render store50 true None) "t1"
                       (start store50)
     = (Returned tt, start store50).
Proof.
  split.
  - apply (signed_out_mutations_do_nothing
             accepting sameDay (render store50 false (Some alice))
             (or_introl eq_refl) (start store50)).
  - apply (signed_out_mutations_do_nothing
             accepting sameDay (render store50 true None)
             (or_intror eq_refl) (start store50)).
Defined.

(** C9. [deleteCategory] leaves the transactions and the budgets as they
    are, whoever calls it and whatever the remote store replies: records
    that name the deleted category stay, and no amount spent is
    recalculated.  Nothing is thrown, and the only request sent, if any, is
    the delete on the categories collection. *)
Theorem deleteCategory_keeps_transactions_and_budgets :
  forall (sb : Supabase) (r : Render) (id : string) (w : World),
    let w' := snd (deleteCategory sb r id w) in
    transactions (store w') = transactions (store w)
    /\ budgets (store w') = budgets (store w)
    /\ fst (deleteCategory sb r id w) = Returned tt
    /\ (forall request,
           In (Remote request) (trace w') ->
           In (Remote request) (trace w)
           \/ request = DeleteCategoryById id).
Proof.
  intros sb r id w. unfold deleteCategory.
  destruct (signedOut r); [simpl; tauto|].
  run. destruct (mutate sb (calls w) _); simpl;
    (repeat split; try reflexivity);
    intros request Hin;
    repeat (apply in_app_or in Hin; destruct Hin as [Hin|Hin]);
    simpl in *; intuition congruence.
Qed.

Lemma deleteCategory_leaves_dangling_references :
  store (snd (deleteCategory accepting (render store50 true (Some alice))
                             "c1" (start store50)))
  = {| transactions := [expenseOf "t1" "Food" 50];
       budgets := [foodBudget 50; rentBudget 0];
       categories := [];
       isLoading := false |}.
Proof. reflexivity. Qed.

(** C10. Adding a transaction whose type is income leaves every budget as
    it was, whatever the remote store replies: the budgets of the store are
    the same list, and no request other than the insert of the transaction
    is sent (no budget is written remotely, no refresh is started). *)
Theorem income_leaves_budgets :
  forall (sb : Supabase) (isoDate : string -> option string) (r : Render)
         (transaction : NewTransaction.t) (w : World),
    NewTransaction.type transaction = income ->
    let w' := snd (settle (addTransaction sb isoDate r transaction) w) in
    budgets (store w') = budgets (store w)
    /\ (forall request,
           In (Remote request) (trace w') ->
           In (Remote request) (trace w)
           \/ request = InsertTransaction (transactionValues r transaction)).
Proof.
  intros sb isoDate r transaction w Hincome.
  unfold settle, addTransaction. rewrite Hincome.
  destruct (signedOut r); [simpl; tauto|].
  run. destruct (insert_transaction sb (calls w) _) as [e|data]; simpl.
  - split; [reflexivity|]. intros request Hin.
    repeat (apply in_app_or in Hin; destruct Hin as [Hin|Hin]);
      simpl in *; intuition congruence.
  - unfold toTransaction. destruct (isoDate (row_date data)); run.
    + split; [reflexivity|]. intros request Hin.
      repeat (apply in_app_or in Hin; destruct Hin as [Hin|Hin]);
        simpl in *; intuition congruence.
    + split; [reflexivity|]. intros request Hin.
      repeat (apply in_app_or in Hin; destruct Hin as [Hin|Hin]);
        simpl in *; intuition congruence.
Qed.

Lemma income_leaves_budgets_witness :
  NewTransaction.type salary = income
  /\ budgets (store (snd (settle (addTransaction
                                    accepting sameDay
                                    (render store50 true (Some alice))
                                    salary)
                                 (start store50))))
     = [foodBudget 50; rentBudget 0].
Proof.
  split; [reflexivity|].
  apply (income_leaves_budgets accepting sameDay
           (render store50 true (Some alice)) salary (start store50)
           eq_refl).
Defined.

(** C7. An [id] that no transaction of the ledger has makes
    [updateTransaction] and [deleteTransaction] leave the ledger as it is,
    and an [id] that no budget has makes [updateBudget] and [deleteBudget]
    leave the budgets as they are; in each case the call returns and
    nothing is thrown, whatever the remote store replies. *)
Theorem unknown_id_is_ignored :
  forall (sb : Supabase) (r : Render) (id : string) (w : World),
    (~ In id (map Transaction.id (transactions (store w))) ->
     (forall fields,
         fst (updateTransaction sb r id fields w) = Returned tt
         /\ transactions (store (snd (updateTransaction sb r id fields w)))
            = transactions (store w))
     /\ fst (deleteTransaction sb r id w) = Returned tt
     /\ transactions (store (snd (deleteTransaction sb r id w)))
        = transactions (store w))
    /\ (~ In id (map Budget.id (budgets (store w))) ->
        (forall fields,
            fst (updateBudget sb r id fields w) = Returned tt
            /\ budgets (store (snd (updateBudget sb r id fields w)))
               = budgets (store w))
        /\ fst (deleteBudget sb r id w) = Returned tt
        /\ budgets (store (snd (deleteBudget sb r id w)))
           = budgets (store w)).
Proof.
  intros sb r id w. split; intro Hid.
  - split; [intro fields|].
    + unfold updateTransaction. destruct (signedOut r); [now split|].
      run. destruct (mutate sb (calls w) _); simpl; [now split|].
      rewrite (map_unless_found Transaction.id id _ _ Hid).
      match goal with
      | |- context [recalculateBudgets sb r ?w0] =>
          pose proof (recalculateBudgets_returns sb r w0) as R;
          pose proof (recalculateBudgets_transactions sb r w0) as T;
          destruct (recalculateBudgets sb r w0) as [o w1]
      end.
      simpl in R, T. subst o. simpl. now split.
    + unfold deleteTransaction. destruct (signedOut r); [now split|].
      run. destruct (mutate sb (calls w) _); simpl; [now split|].
      rewrite (filter_unless_found Transaction.id id _ Hid).
      match goal with
      | |- context [recalculateBudgets sb r ?w0] =>
          pose proof (recalculateBudgets_returns sb r w0) as R;
          pose proof (recalculateBudgets_transactions sb r w0) as T;
          destruct (recalculateBudgets sb r w0) as [o w1]
      end.
      simpl in R, T. subst o. simpl. now split.
  - split; [intro fields|].
    + unfold updateBudget. destruct (signedOut r); [now split|].
      run. destruct (mutate sb (calls w) _); simpl; [now split|].
      now rewrite (map_unless_found Budget.id id _ _ Hid).
    + unfold deleteBudget. destruct (signedOut r); [now split|].
      run. destruct (mutate sb (calls w) _); simpl; [now split|].
      now rewrite (filter_unless_found Budget.id id _ Hid).
Qed.

Lemma unknown_id_is_ignored_witness :
  ~ In "t9" (map Transaction.id (transactions store80))
  /\ ~ In "b9" (map Budget.id (budgets store80))
  /\ transactions
       (store (snd (updateTransaction accepting
                      (render store80 true (Some alice)) "t9" toRent10
                      (start store80))))
     = transactions store80
  /\ budgets
       (store (snd (deleteBudget rejecting
                      (render store80 true (Some alice)) "b9"
                      (start store80))))
     = budgets store80.
Proof.
  assert (Ht : ~ In "t9" (map Transaction.id (transactions store80)))
    by (simpl; intuition discriminate).
  assert (Hb : ~ In "b9" (map Budget.id (budgets store80)))
    by (simpl; intuition discriminate).
  split; [exact Ht|]. split; [exact Hb|]. split.
  - apply (proj1 (unknown_id_is_ignored
                    accepting (render store80 true (Some alice)) "t9"
                    (start store80)) Ht).
  - apply (proj2 (unknown_id_is_ignored
                    rejecting (render store80 true (Some alice)) "b9"
                    (start store80)) Hb).
Defined.

(** ** Budgets after a mutation *)

Lemma signedIn (r : Render) (u : User.t) :
  isAuthenticated r = true -> user r = Some u -> signedOut r = false.
Proof. unfold signedOut. now intros -> ->. Qed.

Lemma addSpent_same (category : string) (amount : float) (b : Budget.t) :
  Budget.category b = category ->
  addSpent category amount b
  = Budget.with_spent b (Budget.spent b + amount)%float.
Proof. unfold addSpent. intros <-. now rewrite String.eqb_refl. Qed.

Lemma addSpent_other (category : string) (amount : float) (b : Budget.t) :
  Budget.category b <> category -> addSpent category amount b = b.
Proof.
  unfold addSpent. intro H.
  now destruct (String.eqb_spec (Budget.category b) category).
Qed.

Lemma map_addSpent_one (category : string) (amount : float)
      (before after : list Budget.t) (b : Budget.t) :
  Budget.category b = category ->
  (forall x, In x (before ++ after) -> Budget.category x <> category) ->
  map (addSpent category amount) (before ++ b :: after)
  = before ++ Budget.with_spent b (Budget.spent b + amount)%float :: after.
Proof.
  intros Hb Hothers.
  assert (Hid : forall l,
             (forall x, In x l -> Budget.category x <> category) ->
             map (addSpent category amount) l = l).
  { induction l as [|x l IH]; simpl; intro H; [reflexivity|].
    rewrite addSpent_other by (apply H; now left).
    f_equal. apply IH. intros y Hy. apply H. now right. }
  rewrite map_app. simpl. rewrite (addSpent_same _ _ _ Hb).
  rewrite !Hid; [reflexivity| |];
    intros x Hx; apply Hothers, in_or_app; tauto.
Qed.

(** C2. When an authenticated user adds an expense and the remote insert
    succeeds, [addTransaction] has, by the time it returns, replaced the
    budgets by the same list in which each budget of the transaction's
    category has the transaction's amount added to its [spent], and every
    budget of another category is the budget it was; with one budget of
    that category, it alone is changed.  If the remote store then accepts
    the write of the new amount, that is also the list of budgets once
    everything the call started has run. *)
Theorem addTransaction_adds_amount_to_matching_budget :
  forall (sb : Supabase) (isoDate : string -> option string) (r : Render)
         (u : User.t) (transaction : NewTransaction.t) (w : World)
         (data : TransactionRow) (day : string),
    isAuthenticated r = true ->
    user r = Some u ->
    NewTransaction.type transaction = expense ->
    insert_transaction sb (calls w) (transactionValues r transaction)
    = Data data ->
    isoDate (row_date data) = Some day ->
    let category := NewTransaction.category transaction in
    let amount := NewTransaction.amount transaction in
    budgets (store (snd (addTransaction sb isoDate r transaction w)))
    = map (addSpent category amount) (budgets (store w))
    /\ (forall b,
           Budget.category b = category ->
           addSpent category amount b
           = Budget.with_spent b (Budget.spent b + amount)%float)
    /\ (forall b, Budget.category b <> category ->
                  addSpent category amount b = b)
    /\ (forall before b after,
           budgets (store w) = before ++ b :: after ->
           Budget.category b = category ->
           (forall x, In x (before ++ after) ->
                      Budget.category x <> category) ->
           budgets (store (snd (addTransaction sb isoDate r transaction w)))
           = before
               ++ Budget.with_spent b (Budget.spent b + amount)%float
               :: after)
    /\ ((forall request, mutate sb (S (calls w)) request = Data tt) ->
        budgets
          (store (snd (settle (addTransaction sb isoDate r transaction) w)))
        = map (addSpent category amount) (budgets (store w))).
Proof.
  intros sb isoDate r u transaction w data day Ha Hu Hexp Hins Hday
         category amount.
  pose proof (signedIn r u Ha Hu) as Hin.
  assert (Hmap :
            budgets (store (snd (addTransaction sb isoDate r transaction w)))
            = map (addSpent category amount) (budgets (store w))).
  { unfold addTransaction, updateBudgetsAfterTransaction, toTransaction.
    rewrite Hin, Hexp. run. rewrite Hins. simpl. rewrite Hday. simpl.
    destruct (find _ (budgets (seen r))); reflexivity. }
  split; [exact Hmap|]. split; [|split; [|split]].
  - apply addSpent_same.
  - apply addSpent_other.
  - intros before b after Hsplit Hb Hothers.
    rewrite Hmap, Hsplit. now apply map_addSpent_one.
  - intro Hok.
    unfold settle, addTransaction, updateBudgetsAfterTransaction,
      toTransaction.
    rewrite Hin, Hexp. run. rewrite Hins. simpl. rewrite Hday. simpl.
    destruct (find _ (budgets (seen r))); simpl; [|reflexivity].
    rewrite Hok. reflexivity.
Qed.

Lemma addTransaction_adds_amount_to_matching_budget_witness :
  budgets (store (snd (addTransaction accepting sameDay
                         (render store50 true (Some alice)) lunch
                         (start store50))))
  = [foodBudget 80; rentBudget 0].
Proof.
  exact (proj1 (addTransaction_adds_amount_to_matching_budget
                  accepting sameDay (render store50 true (Some alice)) alice
                  lunch (start store50) _ "2024-01-15"
                  eq_refl eq_refl eq_refl eq_refl eq_refl)).
Defined.

(** C4. When an authenticated user, whose render has the current ledger,
    adds a budget and the remote insert succeeds and returns the [spent] it
    was sent, the budget put in front of the budgets has for [spent] what
    [computeSpent] gives on the ledger for the budget's category: the sum of
    the expenses of that category that are already there. *)
Theorem addBudget_starts_from_ledger :
  forall (sb : Supabase) (r : Render) (u : User.t) (budget : NewBudget.t)
         (w : World) (data : BudgetRow),
    isAuthenticated r = true ->
    user r = Some u ->
    transactions (seen r) = transactions (store w) ->
    insert_budget sb (calls w) (budgetValues r budget) = Data data ->
    brow_spent data = bins_spent (budgetValues r budget) ->
    budgets (store (snd (addBudget sb r budget w)))
    = {| Budget.id := brow_id data;
         Budget.category := brow_category data;
         Budget.limit := brow_budget_limit data;
         Budget.spent :=
           computeSpent (transactions (store w)) (NewBudget.category budget);
         Budget.period := brow_period data |}
      :: budgets (store w)
    /\ transactions (store (snd (addBudget sb r budget w)))
       = transactions (store w).
Proof.
  intros sb r u budget w data Ha Hu Hseen Hins Hecho.
  unfold addBudget. rewrite (signedIn r u Ha Hu). run. rewrite Hins. simpl.
  unfold toBudget. rewrite Hecho. simpl.
  unfold calculateSpentAmount. rewrite Hseen. now split.
Qed.

Lemma addBudget_starts_from_ledger_witness :
  budgets (store (snd (addBudget accepting
                         (render storeNoBudget true (Some alice))
                         newFoodBudget (start storeNoBudget))))
  = [ {| Budget.id := "b-new"; Budget.category := "Food";
         Budget.limit := 200; Budget.spent := 50;
         Budget.period := monthly |} ].
Proof.
  exact (proj1 (addBudget_starts_from_ledger
                  accepting (render storeNoBudget true (Some alice)) alice
                  newFoodBudget (start storeNoBudget) _
                  eq_refl eq_refl eq_refl eq_refl eq_refl)).
Defined.

(** ** Remote failures while adding a transaction *)

Lemma toTransactions_world (isoDate : string -> option string)
      (rows : list TransactionRow) (w : World) :
  snd (toTransactions isoDate rows w) = w.
Proof.
  induction rows as [|t rest IH]; simpl; [reflexivity|].
  unfold bind, toTransaction.
  destruct (isoDate (row_date t)); simpl; [|reflexivity].
  destruct (toTransactions isoDate rest w) as [[trs|e] w'];
    simpl in *; congruence.
Qed.

(** Once called by a signed-in user, [refreshData] has sent its first
    request, whatever the replies. *)
Lemma refreshData_refreshed (sb : Supabase)
      (isoDate : string -> option string) (r : Render) (w : World) :
  signedOut r = false -> refreshed (snd (refreshData sb isoDate r w)).
Proof.
  intro Hin. unfold refreshed, refreshData. rewrite Hin. run.
  destruct (select_transactions sb (calls w)) as [e|rows]; simpl;
    [rewrite !in_app_iff; simpl; tauto|].
  destruct (select_budgets sb (S (calls w))); simpl;
    [rewrite !in_app_iff; simpl; tauto|].
  destruct (select_categories sb (S (S (calls w)))); simpl;
    [rewrite !in_app_iff; simpl; tauto|].
  match goal with
  | |- context [toTransactions isoDate rows ?w0] =>
      pose proof (toTransactions_world isoDate rows w0) as W;
      destruct (toTransactions isoDate rows w0) as [[trs|e] w1]
  end; simpl in W; subst w1; simpl; rewrite !in_app_iff; simpl; tauto.
Qed.

Lemma refreshData_returns (sb : Supabase)
      (isoDate : string -> option string) (r : Render) (w : World) :
  fst (refreshData sb isoDate r w) = Returned tt.
Proof.
  unfold refreshData. destruct (signedOut r); [reflexivity|]. run.
  destruct (select_transactions sb (calls w)) as [e|rows]; simpl;
    [reflexivity|].
  destruct (select_budgets sb (S (calls w))); simpl; [reflexivity|].
  destruct (select_categories sb (S (S (calls w)))); simpl; [reflexivity|].
  destruct (toTransactions isoDate rows _) as [[trs|e] w1]; reflexivity.
Qed.

(** C3 does not hold as stated.  A signed-in user adds an expense and the
    remote store rejects the insert: the store is the one before the call
    (the ledger has no new transaction, the food budget still has 50
    spent), and the only request ever sent is the insert: no refresh is
    started. *)
Lemma rejected_insert_leaves_store_and_starts_no_refresh :
  insert_transaction rejecting 0
    (transactionValues (render store50 true (Some alice)) lunch)
  = Error (PostgrestError "rejected")
  /\ settle (addTransaction rejecting sameDay
               (render store50 true (Some alice)) lunch) (start store50)
     = (Returned tt,
        {| store := store50;
           calls := 1;
           trace :=
             [Remote (InsertTransaction
                        (transactionValues (render store50 true (Some alice))
                                           lunch));
              ConsoleError "Error adding transaction:";
              Toast "Failed to add transaction"
                    "There was an error saving your transaction" true] |})
  /\ ~ refreshed
         (snd (settle (addTransaction rejecting sameDay
                         (render store50 true (Some alice)) lunch)
                      (start store50))).
Proof.
  split; [reflexivity|]. split; [reflexivity|].
  unfold refreshed. simpl. intuition discriminate.
Qed.

(** C3, amended.  For a signed-in user: when the remote insert of the new
    transaction fails, the store is left as it was and no refresh is
    started; the failure is logged and shown in a toast, and nothing is
    thrown.  The local change comes before the remote reply only for the
    budget: when the insert succeeded, the transaction is an expense and
    the remote write of the budget's new amount fails, [addTransaction] has
    already put the transaction in the ledger and added its amount to the
    budgets of its category when it returns, and a refresh is started
    afterwards. *)
Theorem addTransaction_remote_failure :
  forall (sb : Supabase) (isoDate : string -> option string) (r : Render)
         (u : User.t) (transaction : NewTransaction.t) (w : World),
    isAuthenticated r = true ->
    user r = Some u ->
    (forall e,
        insert_transaction sb (calls w) (transactionValues r transaction)
        = Error e ->
        settle (addTransaction sb isoDate r transaction) w
        = (Returned tt,
           {| store := store w;
              calls := S (calls w);
              trace :=
                trace w
                ++ [Remote (InsertTransaction
                              (transactionValues r transaction));
                    ConsoleError "Error adding transaction:";
                    Toast "Failed to add transaction"
                          "There was an error saving your transaction"
                          true] |}))
    /\ (forall data day budgetToUpdate e,
           insert_transaction sb (calls w) (transactionValues r transaction)
           = Data data ->
           isoDate (row_date data) = Some day ->
           NewTransaction.type transaction = expense ->
           find (fun b => String.eqb (Budget.category b)
                                     (NewTransaction.category transaction))
                (budgets (seen r)) = Some budgetToUpdate ->
           mutate sb (S (calls w))
                  (UpdateBudgetSpentByCategory
                     (Budget.spent budgetToUpdate
                      + NewTransaction.amount transaction)%float
                     (NewTransaction.category transaction))
           = Error e ->
           let returned := snd (addTransaction sb isoDate r transaction w) in
           let settled :=
             settle (addTransaction sb isoDate r transaction) w in
           transactions (store returned)
           = {| Transaction.id := row_id data;
                Transaction.amount := row_amount data;
                Transaction.category := row_category data;
                Transaction.date := day;
                Transaction.description :=
                  match row_description data with
                  | Some d => d
                  | None => ""
                  end;
                Transaction.type := row_type data |}
             :: transactions (store w)
           /\ budgets (store returned)
              = map (addSpent (NewTransaction.category transaction)
                              (NewTransaction.amount transaction))
                    (budgets (store w))
           /\ (forall request,
                  In (Remote request) (trace returned) ->
                  In (Remote request) (trace w)
                  \/ request <> SelectTransactions)
           /\ fst settled = Returned tt
           /\ refreshed (snd settled)).
Proof.
  intros sb isoDate r u transaction w Ha Hu.
  pose proof (signedIn r u Ha Hu) as Hin. split.
  - intros e Hins. unfold settle, addTransaction. rewrite Hin. run.
    rewrite Hins. simpl. now rewrite <- !app_assoc.
  - intros data day budgetToUpdate e Hins Hday Hexp Hfind Hmut.
    unfold settle, addTransaction, updateBudgetsAfterTransaction,
      toTransaction.
    rewrite Hin, Hexp. run. rewrite Hins. simpl. rewrite Hday. simpl.
    rewrite Hfind. simpl. rewrite Hmut. simpl.
    split; [reflexivity|]. split; [reflexivity|]. split; [|split].
    + intros request H. rewrite !in_app_iff in H. simpl in H.
      destruct H as [[[H|H]|H]|H]; [now left| | |]; right;
        intuition congruence.
    + apply refreshData_returns.
    + apply refreshData_refreshed. exact Hin.
Qed.

Lemma addTransaction_remote_failure_witness :
  snd (settle (addTransaction rejecting sameDay
                 (render store50 true (Some alice)) lunch) (start store50))
  = {| store := store50;
       calls := 1;
       trace :=
         [Remote (InsertTransaction
                    (transactionValues (render store50 true (Some alice))
                                       lunch));
          ConsoleError "Error adding transaction:";
          Toast "Failed to add transaction"
                "There was an error saving your transaction" true] |}
  /\ refreshed
       (snd (settle (addTransaction rejectingWrites sameDay
                       (render store50 true (Some alice)) lunch)
                    (start store50))).
Proof.
  split.
  - exact (f_equal snd
             (proj1 (addTransaction_remote_failure
                       rejecting sameDay (render store50 true (Some alice))
                       alice lunch (start store50) eq_refl eq_refl)
                    (PostgrestError "rejected") eq_refl)).
  - exact (proj2 (proj2 (proj2 (proj2
             (proj2 (addTransaction_remote_failure
                       rejectingWrites sameDay
                       (render store50 true (Some alice))
                       alice lunch (start store50) eq_refl eq_refl)
                    _ "2024-01-15" (foodBudget 50)
                    (PostgrestError "rejected")
                    eq_refl eq_refl eq_refl eq_refl eq_refl))))).
Defined.

(** ** Budgets after an update or a delete of a transaction *)

(** What [updateTransaction] and [deleteTransaction] leave in the store when
    the remote store accepts the write: the ledger is changed through the
    setter, and the budgets are those of the render, each with the amount
    spent in the ledger of the render, which is the ledger before the
    change. *)
Lemma deleteTransaction_store (sb : Supabase) (r : Render) (u : User.t)
      (id : string) (w : World) :
  isAuthenticated r = true ->
  user r = Some u ->
  mutate sb (calls w) (DeleteTransactionById id) = Data tt ->
  store (snd (deleteTransaction sb r id w))
  = {| transactions :=
         filter (fun tr => negb (String.eqb (Transaction.id tr) id))
                (transactions (store w));
       budgets := recalculated r;
       categories := categories (store w);
       isLoading := isLoading (store w) |}.
Proof.
  intros Ha Hu Hok. pose proof (signedIn r u Ha Hu) as Hin.
  unfold deleteTransaction. rewrite Hin. run. rewrite Hok. simpl.
  match goal with
  | |- context [recalculateBudgets sb r ?w0] =>
      pose proof (recalculateBudgets_returns sb r w0) as R;
      pose proof (recalculateBudgets_store sb r w0) as S;
      destruct (recalculateBudgets sb r w0) as [o w1]
  end.
  simpl in R, S. subst o. rewrite Hin in S. simpl. exact S.
Qed.

Lemma updateTransaction_store (sb : Supabase) (r : Render) (u : User.t)
      (id : string) (fields : Transaction.partial) (w : World) :
  isAuthenticated r = true ->
  user r = Some u ->
  (forall request, mutate sb (calls w) request = Data tt) ->
  store (snd (updateTransaction sb r id fields w))
  = {| transactions :=
         map (fun tr => if String.eqb (Transaction.id tr) id
                        then Transaction.spread tr fields else tr)
             (transactions (store w));
       budgets := recalculated r;
       categories := categories (store w);
       isLoading := isLoading (store w) |}.
Proof.
  intros Ha Hu Hok. pose proof (signedIn r u Ha Hu) as Hin.
  unfold updateTransaction. rewrite Hin. run. rewrite Hok. simpl.
  match goal with
  | |- context [recalculateBudgets sb r ?w0] =>
      pose proof (recalculateBudgets_returns sb r w0) as R;
      pose proof (recalculateBudgets_store sb r w0) as S;
      destruct (recalculateBudgets sb r w0) as [o w1]
  end.
  simpl in R, S. subst o. rewrite Hin in S. simpl. exact S.
Qed.

(** C1 is not met by the code.  The ledger holds food expenses
    of 50 and 30 and the food budget has 80 spent.  The expense of 30 is
    deleted, or edited into 10 of rent, and the remote store accepts every
    write.  The ledger changes, but the budgets are recalculated from the
    ledger the render had bound, the one before the change: the food budget
    keeps 80 where [computeSpent] on the new ledger gives 50, and after the
    edit the rent budget keeps 0 where it gives 10. *)
Lemma recalculation_reads_ledger_before_change :
  transactions
    (store (snd (deleteTransaction accepting
                   (render store80 true (Some alice)) "t2" (start store80))))
  = [expenseOf "t1" "Food" 50]
  /\ budgets
       (store (snd (deleteTransaction accepting
                      (render store80 true (Some alice)) "t2"
                      (start store80))))
     = [foodBudget 80; rentBudget 0]
  /\ computeSpent [expenseOf "t1" "Food" 50] "Food" = 50%float
  /\ transactions
       (store (snd (updateTransaction accepting
                      (render store80 true (Some alice)) "t2" toRent10
                      (start store80))))
     = [expenseOf "t2" "Rent" 10; expenseOf "t1" "Food" 50]
  /\ budgets
       (store (snd (updateTransaction accepting
                      (render store80 true (Some alice)) "t2" toRent10
                      (start store80))))
     = [foodBudget 80; rentBudget 0]
  /\ computeSpent [expenseOf "t2" "Rent" 10; expenseOf "t1" "Food" 50] "Food"
     = 50%float
  /\ computeSpent [expenseOf "t2" "Rent" 10; expenseOf "t1" "Food" 50] "Rent"
     = 10%float
  /\ ~ Forall
         (fun b =>
            Budget.spent b
            = computeSpent
                (transactions
                   (store (snd (deleteTransaction accepting
                                  (render store80 true (Some alice)) "t2"
                                  (start store80)))))
                (Budget.category b))
         (budgets
            (store (snd (deleteTransaction accepting
                           (render store80 true (Some alice)) "t2"
                           (start store80))))).
Proof.
  repeat (split; [reflexivity|]).
  intro H. apply Forall_inv in H.
  apply (f_equal (fun x => PrimFloat.ltb 60 x)) in H.
  vm_compute in H. discriminate.
Qed.

(** * Further properties of the provider *)

(** ** No exception leaves an entry point *)

Lemma updateBudgetsAfterTransaction_returns (sb : Supabase)
      (isoDate : string -> option string) (r : Render) (category : string)
      (amount : float) (w : World) :
  exists later w',
    updateBudgetsAfterTransaction sb isoDate r category amount w
    = (Returned later, w')
    /\ forall w'', fst (later w'') = Returned tt.
Proof.
  unfold updateBudgetsAfterTransaction.
  destruct (signedOut r); [now eexists _, _|].
  run. destruct (find _ (budgets (seen r))); simpl.
  - eexists _, _. split; [reflexivity|]. intro w''.
    destruct (mutate sb (calls w) _) as [e|[]]; simpl; [|reflexivity].
    apply refreshData_returns.
  - now eexists _, _.
Qed.

(** X1. Each of the nine mutation entry points and [refreshData] returns
    normally, for every render, every world and every reply of the remote
    store, including what [addTransaction] leaves to run later: a rejected
    request or an invalid date is caught inside the provider. *)
Theorem entry_points_never_throw :
  forall (sb : Supabase) (isoDate : string -> option string) (r : Render)
         (w : World),
    (forall transaction,
        fst (settle (addTransaction sb isoDate r transaction) w)
        = Returned tt)
    /\ (forall id fields,
           fst (updateTransaction sb r id fields w) = Returned tt)
    /\ (forall id, fst (deleteTransaction sb r id w) = Returned tt)
    /\ (forall budget, fst (addBudget sb r budget w) = Returned tt)
    /\ (forall id fields, fst (updateBudget sb r id fields w) = Returned tt)
    /\ (forall id, fst (deleteBudget sb r id w) = Returned tt)
    /\ (forall category, fst (addCategory sb r category w) = Returned tt)
    /\ (forall id fields,
           fst (updateCategory sb r id fields w) = Returned tt)
    /\ (forall id, fst (deleteCategory sb r id w) = Returned tt)
    /\ fst (refreshData sb isoDate r w) = Returned tt.
Proof.
  intros sb isoDate r w.
  repeat match goal with |- _ /\ _ => split end.
  - intro transaction. unfold settle, addTransaction.
    destruct (signedOut r); [reflexivity|].
    run. destruct (insert_transaction sb (calls w) _) as [e|data]; simpl;
      [reflexivity|].
    unfold toTransaction. destruct (isoDate (row_date data)); simpl;
      [|reflexivity].
    destruct (TransactionType_eqb (NewTransaction.type transaction) expense);
      [|reflexivity].
    match goal with
    | |- context [updateBudgetsAfterTransaction sb isoDate r ?c ?a ?w0] =>
        destruct (updateBudgetsAfterTransaction_returns sb isoDate r c a w0)
          as (later & w' & E & L); rewrite E
    end.
    simpl. apply L.
  - intros id fields. unfold updateTransaction.
    destruct (signedOut r); [reflexivity|].
    run. destruct (mutate sb (calls w) _); simpl; [reflexivity|].
    match goal with
    | |- context [recalculateBudgets sb r ?w0] =>
        pose proof (recalculateBudgets_returns sb r w0) as R;
        destruct (recalculateBudgets sb r w0) as [o w1]
    end.
    simpl in R. now subst o.
  - intro id. unfold deleteTransaction.
    destruct (signedOut r); [reflexivity|].
    run. destruct (mutate sb (calls w) _); simpl; [reflexivity|].
    match goal with
    | |- context [recalculateBudgets sb r ?w0] =>
        pose proof (recalculateBudgets_returns sb r w0) as R;
        destruct (recalculateBudgets sb r w0) as [o w1]
    end.
    simpl in R. now subst o.
  - intro budget. unfold addBudget. destruct (signedOut r); [reflexivity|].
    run. now destruct (insert_budget sb (calls w) _).
  - intros id fields. unfold updateBudget.
    destruct (signedOut r); [reflexivity|].
    run. now destruct (mutate sb (calls w) _).
  - intro id. unfold deleteBudget. destruct (signedOut r); [reflexivity|].
    run. now destruct (mutate sb (calls w) _).
  - intro category. unfold addCategory.
    destruct (signedOut r); [reflexivity|].
    run. now destruct (insert_category sb (calls w) _).
  - intros id fields. unfold updateCategory.
    destruct (signedOut r); [reflexivity|].
    run. now destruct (mutate sb (calls w) _).
  - intro id. unfold deleteCategory. destruct (signedOut r); [reflexivity|].
    run. now destruct (mutate sb (calls w) _).
  - apply refreshData_returns.
Qed.

(** ** A rejected write *)

(** X2. For a signed-in user, when the remote store rejects the write an
    entry point starts with, the entry point leaves the whole store as it
    was (transactions, budgets, categories and loading flag) and sends no
    other request: the remote write always comes before the local change.
    This holds for all nine mutation entry points. *)
Theorem rejected_write_changes_nothing :
  forall (sb : Supabase) (isoDate : string -> option string) (r : Render)
         (u : User.t) (w : World) (error : Exn),
    isAuthenticated r = true ->
    user r = Some u ->
    rejectsAt sb (calls w) error ->
    (forall transaction,
        oneCallNoChange
          w (snd (settle (addTransaction sb isoDate r transaction) w)))
    /\ (forall id fields,
           oneCallNoChange w (snd (updateTransaction sb r id fields w)))
    /\ (forall id, oneCallNoChange w (snd (deleteTransaction sb r id w)))
    /\ (forall budget, oneCallNoChange w (snd (addBudget sb r budget w)))
    /\ (forall id fields,
           oneCallNoChange w (snd (updateBudget sb r id fields w)))
    /\ (forall id, oneCallNoChange w (snd (deleteBudget sb r id w)))
    /\ (forall category,
           oneCallNoChange w (snd (addCategory sb r category w)))
    /\ (forall id fields,
           oneCallNoChange w (snd (updateCategory sb r id fields w)))
    /\ (forall id, oneCallNoChange w (snd (deleteCategory sb r id w))).
Proof.
  intros sb isoDate r u w error Ha Hu (Ht & Hb & Hc & Hm).
  pose proof (signedIn r u Ha Hu) as Hin.
  unfold oneCallNoChange, settle, addTransaction, updateTransaction,
    deleteTransaction, addBudget, updateBudget, deleteBudget, addCategory,
    updateCategory, deleteCategory.
  rewrite Hin. run.
  repeat match goal with |- _ /\ _ => split end; intros;
    rewrite ?Ht, ?Hb, ?Hc, ?Hm; simpl; split; reflexivity.
Qed.

Lemma rejected_write_changes_nothing_witness :
  rejectsAt rejecting 0 (PostgrestError "rejected")
  /\ store (snd (updateBudget rejecting (render store80 true (Some alice))
                              "b1" noBudgetFields (start store80)))
     = store80.
Proof.
  assert (H : rejectsAt rejecting 0 (PostgrestError "rejected"))
    by (repeat split).
  split; [exact H|].
  pose proof (rejected_write_changes_nothing
                rejecting sameDay (render store80 true (Some alice)) alice
                (start store80) _ eq_refl eq_refl H) as T.
  exact (proj1 (proj1 (proj2 (proj2 (proj2 (proj2 T))))
                      "b1" noBudgetFields)).
Defined.

(** ** The full refresh *)



(** ** Recalculating all budgets *)

Lemma recalculated_fields (r : Render) :
  map Budget.id (recalculated r) = map Budget.id (budgets (seen r))
  /\ map Budget.category (recalculated r)
     = map Budget.category (budgets (seen r))
  /\ map Budget.limit (recalculated r) = map Budget.limit (budgets (seen r))
  /\ map Budget.period (recalculated r)
     = map Budget.period (budgets (seen r)).
Proof.
  unfold recalculated. rewrite !map_map. simpl. repeat split.
Qed.

Lemma recalculated_spent (r : Render) :
  Forall (fun b =>
            Budget.spent b
            = computeSpent (transactions (seen r)) (Budget.category b))
         (recalculated r).
Proof.
  unfold recalculated. apply Forall_forall. intros b Hb.
  apply in_map_iff in Hb. destruct Hb as (b0 & <- & _). reflexivity.
Qed.

(** X4. For a signed-in user [recalculateBudgets] changes nothing but the
    [spent] of the budgets, whatever the remote store replies: the budgets
    it leaves have, in the same order, the ids, categories, limits and
    periods of the budgets of the render, each with [spent] equal to
    [computeSpent] on the ledger of the render; transactions and categories
    are untouched.  So when the render has the current ledger the store is
    consistent afterwards, also if a remote write failed. *)
Theorem recalculateBudgets_rewrites_only_spent :
  forall (sb : Supabase) (r : Render) (u : User.t) (w : World),
    isAuthenticated r = true ->
    user r = Some u ->
    let s' := store (snd (recalculateBudgets sb r w)) in
    map Budget.id (budgets s') = map Budget.id (budgets (seen r))
    /\ map Budget.category (budgets s')
       = map Budget.category (budgets (seen r))
    /\ map Budget.limit (budgets s') = map Budget.limit (budgets (seen r))
    /\ map Budget.period (budgets s')
       = map Budget.period (budgets (seen r))
    /\ Forall (fun b =>
                 Budget.spent b
                 = computeSpent (transactions (seen r)) (Budget.category b))
              (budgets s')
    /\ transactions s' = transactions (store w)
    /\ categories s' = categories (store w)
    /\ (transactions (seen r) = transactions (store w) -> consistent s').
Proof.
  intros sb r u w Ha Hu. simpl.
  rewrite recalculateBudgets_store, (signedIn r u Ha Hu). simpl.
  destruct (recalculated_fields r) as (Hi & Hc & Hl & Hp).
  repeat split; try assumption.
  - apply recalculated_spent.
  - intro Hseen. unfold consistent. simpl. rewrite <- Hseen.
    apply recalculated_spent.
Qed.

Lemma recalculateBudgets_rewrites_only_spent_witness :
  consistent
    (store (snd (recalculateBudgets rejecting
                   (render store80 true (Some alice)) (start store80)))).
Proof.
  apply (recalculateBudgets_rewrites_only_spent
           rejecting (render store80 true (Some alice)) alice
           (start store80) eq_refl eq_refl).
  reflexivity.
Defined.

Lemma persistSpent_accepted (sb : Supabase) (updatedBudgets : list Budget.t) :
  acceptsWrites sb ->
  forall w,
    persistSpent sb updatedBudgets w
    = (Returned tt,
       {| store := store w;
          calls := calls w + length updatedBudgets;
          trace :=
            trace w ++ map (fun b => Remote (spentWrite b)) updatedBudgets |}).
Proof.
  intro Hok. induction updatedBudgets as [|b rest IH]; intro w; simpl.
  - unfold ret. rewrite Nat.add_0_r, app_nil_r. now destruct w.
  - run. rewrite Hok. simpl. rewrite IH. simpl.
    rewrite <- app_assoc, Nat.add_succ_r. reflexivity.
Qed.

Lemma persistSpent_rejected (sb : Supabase) (before after : list Budget.t)
      (b : Budget.t) (error : Exn) :
  forall w,
    (forall i, i < length before ->
               forall q, mutate sb (calls w + i) q = Data tt) ->
    mutate sb (calls w + length before) (spentWrite b) = Error error ->
    persistSpent sb (before ++ b :: after) w
    = (Thrown error,
       {| store := store w;
          calls := S (calls w + length before);
          trace :=
            trace w
            ++ map (fun b => Remote (spentWrite b)) (before ++ [b]) |}).
Proof.
  induction before as [|x before IH]; intros w Hok Hno; simpl in *.
  - run. rewrite Nat.add_0_r in Hno. unfold spentWrite in Hno.
    rewrite Hno. simpl. now rewrite Nat.add_0_r.
  - run. pose proof (Hok 0 (Nat.lt_0_succ _)) as H0.
    rewrite Nat.add_0_r in H0. rewrite H0. simpl.
    rewrite IH; simpl.
    + rewrite <- app_assoc, Nat.add_succ_r. reflexivity.
    + intros i Hi q. specialize (Hok (S i) (proj1 (Nat.succ_lt_mono _ _) Hi) q).
      now rewrite Nat.add_succ_r in Hok.
    + now rewrite Nat.add_succ_r in Hno.
Qed.

Lemma recalculateBudgets_signedIn (sb : Supabase) (r : Render) (w : World) :
  signedOut r = false ->
  recalculateBudgets sb r w
  = try_catch
      (setBudgets (fun _ => recalculated r) ;;
       persistSpent sb (recalculated r))
      (fun _ =>
         console_error "Error recalculating budgets:" ;;
         toast "Budget update failed"
               "There was an error updating your budget calculations" true)
      w.
Proof. intro Hin. unfold recalculateBudgets. now rewrite Hin. Qed.

(** X5. The remote writes of [recalculateBudgets] mirror the local
    budgets, one by one and in order.  When the remote store accepts them,
    one write is sent for each recalculated budget, with that budget's id
    and new [spent], and nothing is shown.  When the write for a budget is
    rejected, no write is sent for the budgets after it, and the "Budget
    update failed" toast is shown; the local budgets are the recalculated
    ones all the same. *)
Theorem recalculateBudgets_remote_writes :
  forall (sb : Supabase) (r : Render) (u : User.t) (w : World),
    isAuthenticated r = true ->
    user r = Some u ->
    (acceptsWrites sb ->
     recalculateBudgets sb r w
     = (Returned tt,
        {| store :=
             {| transactions := transactions (store w);
                budgets := recalculated r;
                categories := categories (store w);
                isLoading := isLoading (store w) |};
           calls := calls w + length (recalculated r);
           trace :=
             trace w
             ++ map (fun b => Remote (spentWrite b)) (recalculated r) |}))
    /\ (forall before b after error,
           recalculated r = before ++ b :: after ->
           (forall i, i < length before ->
                      forall q, mutate sb (calls w + i) q = Data tt) ->
           mutate sb (calls w + length before) (spentWrite b)
           = Error error ->
           recalculateBudgets sb r w
           = (Returned tt,
              {| store :=
                   {| transactions := transactions (store w);
                      budgets := recalculated r;
                      categories := categories (store w);
                      isLoading := isLoading (store w) |};
                 calls := S (calls w + length before);
                 trace :=
                   trace w
                   ++ map (fun b => Remote (spentWrite b)) (before ++ [b])
                   ++ [ConsoleError "Error recalculating budgets:";
                       Toast "Budget update failed"
                             "There was an error updating your budget calculations"
                             true] |})).
Proof.
  intros sb r u w Ha Hu. pose proof (signedIn r u Ha Hu) as Hin. split.
  - intro Hok. rewrite (recalculateBudgets_signedIn sb r w Hin).
    unfold try_catch, bind, setBudgets, modify.
    rewrite (persistSpent_accepted sb _ Hok). reflexivity.
  - intros before b after error Hsplit Hok Hno.
    rewrite (recalculateBudgets_signedIn sb r w Hin).
    unfold try_catch, bind, setBudgets, modify.
    rewrite Hsplit.
    rewrite (persistSpent_rejected sb before after b error); simpl;
      [|assumption|assumption].
    run. rewrite <- !app_assoc. reflexivity.
Qed.

Lemma recalculateBudgets_remote_writes_witness :
  trace (snd (recalculateBudgets accepting
                (render store80 true (Some alice)) (start store80)))
  = [Remote (spentWrite (foodBudget 80)); Remote (spentWrite (rentBudget 0))].
Proof.
  exact (f_equal (fun x => trace (snd x))
           (proj1 (recalculateBudgets_remote_writes
                     accepting (render store80 true (Some alice)) alice
                     (start store80) eq_refl eq_refl)
                  (fun _ _ => eq_refl))).
Defined.

(** ** The incremental update against the full recalculation *)

Lemma computeSpent_cons_skip (t : Transaction.t) (l : list Transaction.t)
      (category : string) :
  spent_filter category t = false ->
  computeSpent (t :: l) category = computeSpent l category.
Proof. unfold computeSpent. simpl. now intros ->. Qed.

Lemma computeSpent_keeps_positive_zero (l : list Transaction.t)
      (category : string) :
  noRounding l category = true ->
  Prim2SF (computeSpent l category) <> S754_zero true.
Proof.
  intro H. unfold computeSpent. rewrite fold_left_amounts.
  apply sumsExactly_keeps_positive_zero; [vm_compute; discriminate|exact H].
Qed.

(** Without rounding, the amount spent with a new expense in front of the
    ledger is the amount spent before plus the expense's amount. *)
Lemma computeSpent_cons_exact (t : Transaction.t) (l : list Transaction.t)
      (category : string) :
  spent_filter category t = true ->
  noRounding (t :: l) category = true ->
  noRounding l category = true ->
  addsExactly (computeSpent l category) (Transaction.amount t) = true ->
  computeSpent (t :: l) category
  = (computeSpent l category + Transaction.amount t)%float.
Proof.
  intros Hf H1 H2 H3.
  pose proof (computeSpent_exactValue _ _ H1) as V1.
  pose proof (computeSpent_exactValue _ _ H2) as V2.
  simpl in V1. rewrite Hf in V1. simpl in V1.
  assert (V3 : exactValue (computeSpent l category + Transaction.amount t)
               = Some (exactSum
                         (Transaction.amount t
                          :: map Transaction.amount
                               (filter (spent_filter category) l)))).
  { pose proof H3 as H. unfold addsExactly in H. rewrite V2 in H.
    destruct (exactValue (computeSpent l category + Transaction.amount t))
      as [s|]; [|discriminate].
    destruct (exactValue (Transaction.amount t)) as [va|] eqn:Ea;
      [|discriminate].
    apply Z.eqb_eq in H. subst s. f_equal.
    change (exactSum (Transaction.amount t
                      :: map Transaction.amount
                           (filter (spent_filter category) l)))
      with (unitsOf (Transaction.amount t)
            + exactSum (map Transaction.amount
                            (filter (spent_filter category) l)))%Z.
    unfold unitsOf. rewrite Ea. lia. }
  apply (same_value_same_double _ _ _ V1 V3).
  - now apply computeSpent_keeps_positive_zero.
  - apply addsExactly_keeps_positive_zero; [|exact H3].
    now apply computeSpent_keeps_positive_zero.
Qed.

(** X6. The incremental update agrees with the full recalculation as long
    as no addition rounds.  A signed-in user adds a transaction, the remote
    insert succeeds and returns the amount, category and type it was sent,
    and the budgets were consistent with the ledger.  If the calculator
    adds the transaction's category without rounding, before and after the
    transaction is put in front of the ledger, and the amount adds to the
    amount spent without rounding, then the budgets [addTransaction] leaves
    are consistent with the new ledger. *)
Theorem addTransaction_keeps_budgets_consistent :
  forall (sb : Supabase) (isoDate : string -> option string) (r : Render)
         (u : User.t) (transaction : NewTransaction.t) (w : World)
         (data : TransactionRow) (day : string),
    isAuthenticated r = true ->
    user r = Some u ->
    insert_transaction sb (calls w) (transactionValues r transaction)
    = Data data ->
    isoDate (row_date data) = Some day ->
    row_amount data = NewTransaction.amount transaction ->
    row_category data = NewTransaction.category transaction ->
    row_type data = NewTransaction.type transaction ->
    consistent (store w) ->
    noRounding (asTransaction data day :: transactions (store w))
               (NewTransaction.category transaction) = true ->
    noRounding (transactions (store w))
               (NewTransaction.category transaction) = true ->
    addsExactly (computeSpent (transactions (store w))
                              (NewTransaction.category transaction))
                (NewTransaction.amount transaction) = true ->
    consistent (store (snd (addTransaction sb isoDate r transaction w))).
Proof.
  intros sb isoDate r u transaction w data day Ha Hu Hins Hday Hamount Hcat
         Htype Hcons H1 H2 H3.
  pose proof (signedIn r u Ha Hu) as Hin.
  set (new := asTransaction data day) in *.
  assert (Hstore :
            transactions
              (store (snd (addTransaction sb isoDate r transaction w)))
            = new :: transactions (store w)
            /\ budgets
                 (store (snd (addTransaction sb isoDate r transaction w)))
               = if TransactionType_eqb (NewTransaction.type transaction)
                                        expense
                 then map (addSpent (NewTransaction.category transaction)
                                    (NewTransaction.amount transaction))
                          (budgets (store w))
                 else budgets (store w)).
  { unfold addTransaction, updateBudgetsAfterTransaction, toTransaction.
    rewrite Hin. run. rewrite Hins. simpl. rewrite Hday. simpl.
    destruct (TransactionType_eqb (NewTransaction.type transaction) expense);
      simpl; [|now split].
    destruct (find _ (budgets (seen r))); simpl; now split. }
  destruct Hstore as [Hl Hb]. unfold consistent. rewrite Hl, Hb.
  unfold consistent in Hcons. rewrite Forall_forall in Hcons.
  assert (Hfilter :
            forall c, spent_filter c new
                      = String.eqb (NewTransaction.category transaction) c
                        && TransactionType_eqb
                             (NewTransaction.type transaction) expense).
  { intro c. unfold spent_filter, new. simpl. now rewrite Hcat, Htype. }
  destruct (TransactionType_eqb (NewTransaction.type transaction) expense)
    eqn:Hexp.
  - apply Forall_forall. intros b Hb'. apply in_map_iff in Hb'.
    destruct Hb' as (b0 & <- & Hb0). specialize (Hcons b0 Hb0).
    unfold addSpent.
    destruct (String.eqb_spec (Budget.category b0)
                              (NewTransaction.category transaction))
      as [E|E]; simpl.
    + rewrite E in *. rewrite Hcons.
      rewrite computeSpent_cons_exact; try assumption.
      * unfold new. simpl. now rewrite Hamount.
      * rewrite Hfilter, String.eqb_refl. reflexivity.
      * unfold new. simpl. now rewrite Hamount.
    + rewrite computeSpent_cons_skip; [exact Hcons|].
      rewrite Hfilter.
      destruct (String.eqb_spec (NewTransaction.category transaction)
                                (Budget.category b0)); [congruence|].
      reflexivity.
  - apply Forall_forall. intros b Hb'. specialize (Hcons b Hb').
    rewrite computeSpent_cons_skip; [exact Hcons|].
    rewrite Hfilter. apply andb_false_r.
Qed.

Lemma addTransaction_keeps_budgets_consistent_witness :
  consistent store50
  /\ consistent
       (store (snd (addTransaction accepting sameDay
                      (render store50 true (Some alice)) lunch
                      (start store50)))).
Proof.
  assert (H : consistent store50) by (repeat constructor).
  split; [exact H|].
  apply (addTransaction_keeps_budgets_consistent
           accepting sameDay (render store50 true (Some alice)) alice lunch
           (start store50) _ "2024-01-15"
           eq_refl eq_refl eq_refl eq_refl eq_refl eq_refl eq_refl H);
    vm_compute; reflexivity.
Defined.

(** ** Adding, then deleting; updating twice *)

Lemma filter_cons_fresh {A} (key : A -> string) (x : A) (l : list A) :
  ~ In (key x) (map key l) ->
  filter (fun y => negb (String.eqb (key y) (key x))) (x :: l) = l.
Proof.
  intro H. simpl. rewrite String.eqb_refl. simpl.
  now apply filter_unless_found.
Qed.

(** X7. For a signed-in user and a remote store that accepts the writes:
    adding a record and then deleting it by the id the remote insert
    returned gives back the collection as it was, provided that id was not
    already the id of a record.  This holds for budgets, for categories and
    for the ledger of transactions. *)
Theorem add_then_delete_restores :
  forall (sb : Supabase) (isoDate : string -> option string)
         (r r' : Render) (u u' : User.t) (w : World),
    isAuthenticated r = true -> user r = Some u ->
    isAuthenticated r' = true -> user r' = Some u' ->
    acceptsWrites sb ->
    (forall budget data,
        insert_budget sb (calls w) (budgetValues r budget) = Data data ->
        ~ In (brow_id data) (map Budget.id (budgets (store w))) ->
        budgets
          (store (snd (deleteBudget sb r' (brow_id data)
                         (snd (addBudget sb r budget w)))))
        = budgets (store w))
    /\ (forall category data,
           insert_category sb (calls w)
             {| cins_user_id := user_id r;
                cins_name := NewCategory.name category;
                cins_type := NewCategory.type category;
                cins_color := NewCategory.color category |}
           = Data data ->
           ~ In (crow_id data) (map Category.id (categories (store w))) ->
           categories
             (store (snd (deleteCategory sb r' (crow_id data)
                            (snd (addCategory sb r category w)))))
           = categories (store w))
    /\ (forall transaction data day,
           insert_transaction sb (calls w) (transactionValues r transaction)
           = Data data ->
           isoDate (row_date data) = Some day ->
           ~ In (row_id data)
                (map Transaction.id (transactions (store w))) ->
           transactions
             (store (snd (deleteTransaction sb r' (row_id data)
                            (snd (settle
                                    (addTransaction sb isoDate r transaction)
                                    w)))))
           = transactions (store w)).
Proof.
  intros sb isoDate r r' u u' w Ha Hu Ha' Hu' Hok.
  pose proof (signedIn r u Ha Hu) as Hin.
  pose proof (signedIn r' u' Ha' Hu') as Hin'.
  split; [|split].
  - intros budget data Hins Hfresh.
    unfold deleteBudget, addBudget. rewrite Hin, Hin'. run.
    rewrite Hins. simpl. rewrite Hok. simpl.
    apply (filter_cons_fresh Budget.id (toBudget data)). exact Hfresh.
  - intros category data Hins Hfresh.
    unfold deleteCategory, addCategory. rewrite Hin, Hin'. run.
    rewrite Hins. simpl. rewrite Hok. simpl.
    apply (filter_cons_fresh Category.id (toCategory data)). exact Hfresh.
  - intros transaction data day Hins Hday Hfresh.
    rewrite (deleteTransaction_store sb r' u' _ _ Ha' Hu' (Hok _ _)).
    simpl.
    assert (Hl : transactions
                   (store (snd (settle
                                  (addTransaction sb isoDate r transaction)
                                  w)))
                 = asTransaction data day :: transactions (store w)).
    { unfold settle, addTransaction, updateBudgetsAfterTransaction,
        toTransaction.
      rewrite Hin. run. rewrite Hins. simpl. rewrite Hday. simpl.
      destruct (TransactionType_eqb (NewTransaction.type transaction)
                                    expense); simpl; [|reflexivity].
      destruct (find _ (budgets (seen r))); simpl; [|reflexivity].
      rewrite Hok. reflexivity. }
    rewrite Hl.
    apply (filter_cons_fresh Transaction.id (asTransaction data day)).
    exact Hfresh.
Qed.

Lemma add_then_delete_restores_witness :
  acceptsWrites accepting
  /\ budgets
       (store (snd (deleteBudget accepting
                      (render store50 true (Some alice)) "b-new"
                      (snd (addBudget accepting
                              (render store50 true (Some alice))
                              newFoodBudget (start store50))))))
     = budgets store50.
Proof.
  assert (H : acceptsWrites accepting) by (intros n q; reflexivity).
  split; [exact H|].
  refine (proj1 (add_then_delete_restores
                   accepting sameDay (render store50 true (Some alice))
                   (render store50 true (Some alice)) alice alice
                   (start store50) eq_refl eq_refl eq_refl eq_refl H)
                newFoodBudget _ eq_refl _).
  simpl. intuition discriminate.
Defined.

Lemma spread_budget_twice (b : Budget.t) (p : Budget.partial) :
  Budget.spread (Budget.spread b p) p = Budget.spread b p.
Proof.
  unfold Budget.spread. simpl.
  destruct (Budget.id' p), (Budget.category' p), (Budget.limit' p),
    (Budget.spent' p), (Budget.period' p); reflexivity.
Qed.

Lemma spread_category_twice (c : Category.t) (p : Category.partial) :
  Category.spread (Category.spread c p) p = Category.spread c p.
Proof.
  unfold Category.spread. simpl.
  destruct (Category.id' p), (Category.name' p), (Category.type' p),
    (Category.color' p); reflexivity.
Qed.

Lemma spread_transaction_twice (t : Transaction.t) (p : Transaction.partial) :
  Transaction.spread (Transaction.spread t p) p = Transaction.spread t p.
Proof.
  unfold Transaction.spread. simpl.
  destruct (Transaction.id' p), (Transaction.amount' p),
    (Transaction.category' p), (Transaction.date' p),
    (Transaction.description' p), (Transaction.type' p); reflexivity.
Qed.

Lemma map_update_twice {A} (key : A -> string) (id : string) (f : A -> A)
      (l : list A) :
  (forall x, f (f x) = f x) ->
  map (fun x => if String.eqb (key x) id then f x else x)
      (map (fun x => if String.eqb (key x) id then f x else x) l)
  = map (fun x => if String.eqb (key x) id then f x else x) l.
Proof.
  intro Hf. rewrite map_map. apply map_ext. intro x.
  destruct (String.eqb (key x) id) eqn:E.
  - destruct (String.eqb (key (f x)) id); [apply Hf|reflexivity].
  - now rewrite E.
Qed.

(** X8. An update repeated with the same id and the same fields changes
    nothing the second time: for a signed-in user and a remote store that
    accepts the writes, the budgets after two calls of [updateBudget] are
    the budgets after one, and likewise the categories for [updateCategory]
    and the ledger for [updateTransaction], also when the fields give the
    record a new id. *)
Theorem update_twice_is_update_once :
  forall (sb : Supabase) (r r' : Render) (u u' : User.t) (id : string)
         (w : World),
    isAuthenticated r = true -> user r = Some u ->
    isAuthenticated r' = true -> user r' = Some u' ->
    acceptsWrites sb ->
    (forall fields,
        budgets (store (snd (updateBudget sb r' id fields
                               (snd (updateBudget sb r id fields w)))))
        = budgets (store (snd (updateBudget sb r id fields w))))
    /\ (forall fields,
           categories
             (store (snd (updateCategory sb r' id fields
                            (snd (updateCategory sb r id fields w)))))
           = categories (store (snd (updateCategory sb r id fields w))))
    /\ (forall fields,
           transactions
             (store (snd (updateTransaction sb r' id fields
                            (snd (updateTransaction sb r id fields w)))))
           = transactions
               (store (snd (updateTransaction sb r id fields w)))).
Proof.
  intros sb r r' u u' id w Ha Hu Ha' Hu' Hok.
  pose proof (signedIn r u Ha Hu) as Hin.
  pose proof (signedIn r' u' Ha' Hu') as Hin'.
  split; [|split]; intro fields.
  - unfold updateBudget. rewrite Hin, Hin'. run. rewrite !Hok. simpl.
    apply (map_update_twice Budget.id id (fun b => Budget.spread b fields)).
    intro b. apply spread_budget_twice.
  - unfold updateCategory. rewrite Hin, Hin'. run. rewrite !Hok. simpl.
    apply (map_update_twice Category.id id
             (fun c => Category.spread c fields)).
    intro c. apply spread_category_twice.
  - rewrite (updateTransaction_store sb r' u' id fields _ Ha' Hu'
               (fun q => Hok _ q)).
    rewrite (updateTransaction_store sb r u id fields _ Ha Hu
               (fun q => Hok _ q)).
    simpl.
    apply (map_update_twice Transaction.id id
             (fun t => Transaction.spread t fields)).
    intro t. apply spread_transaction_twice.
Qed.

Lemma update_twice_is_update_once_witness :
  budgets
    (store (snd (updateBudget accepting (render store80 true (Some alice))
                   "b1" toRentCategory
                   (snd (updateBudget accepting
                           (render store80 true (Some alice))
                           "b1" toRentCategory (start store80))))))
  = budgets
      (store (snd (updateBudget accepting (render store80 true (Some alice))
                     "b1" toRentCategory (start store80)))).
Proof.
  exact (proj1 (update_twice_is_update_once
                  accepting (render store80 true (Some alice))
                  (render store80 true (Some alice)) alice alice "b1"
                  (start store80) eq_refl eq_refl eq_refl eq_refl
                  (fun _ _ => eq_refl))
               toRentCategory).
Defined.

(** ** What the budget entry points do to [spent] *)

(** X9. [updateBudget] never recalculates: when the fields carry no
    [spent], every budget keeps the [spent] it had, in the same order,
    whoever calls it and whatever the remote store replies, also when the
    fields move a budget to another category; the ledger is not touched
    either. *)
Theorem updateBudget_keeps_spent :
  forall (sb : Supabase) (r : Render) (id : string)
         (fields : Budget.partial) (w : World),
    Budget.spent' fields = None ->
    map Budget.spent (budgets (store (snd (updateBudget sb r id fields w))))
    = map Budget.spent (budgets (store w))
    /\ transactions (store (snd (updateBudget sb r id fields w)))
       = transactions (store w).
Proof.
  intros sb r id fields w Hnone. unfold updateBudget.
  destruct (signedOut r); [now split|].
  run. destruct (mutate sb (calls w) _); simpl; [now split|].
  split; [|reflexivity].
  rewrite map_map. apply map_ext. intro b.
  destruct (String.eqb (Budget.id b) id); [|reflexivity].
  unfold Budget.spread. simpl. now rewrite Hnone.
Qed.

Lemma updateBudget_keeps_spent_witness :
  budgets (store (snd (updateBudget accepting
                         (render store80 true (Some alice)) "b1"
                         toRentCategory (start store80))))
  = [ {| Budget.id := "b1"; Budget.category := "Rent"; Budget.limit := 200;
         Budget.spent := 80; Budget.period := monthly |};
      rentBudget 0 ]
  /\ map Budget.spent
         (budgets (store (snd (updateBudget accepting
                                 (render store80 true (Some alice)) "b1"
                                 toRentCategory (start store80)))))
     = [80%float; 0%float].
Proof.
  split; [reflexivity|].
  exact (proj1 (updateBudget_keeps_spent
                  accepting (render store80 true (Some alice)) "b1"
                  toRentCategory (start store80) eq_refl)).
Defined.




(** * Properties of the pages *)

(** ** Pages of transactions *)

Lemma firstn_add_skipn {A} (a b : nat) (l : list A) :
  firstn (a + b) l = firstn a l ++ firstn b (skipn a l).
Proof.
  revert l. induction a as [|a IH]; intro l; simpl; [reflexivity|].
  destruct l as [|x l]; simpl.
  - now rewrite firstn_nil.
  - now rewrite IH.
Qed.

Lemma paginatedTransactions_S {A} (l : list A) (n : nat) :
  paginatedTransactions l (S n)
  = firstn itemsPerPage (skipn (n * itemsPerPage) l).
Proof.
  unfold paginatedTransactions, slice, itemsPerPage.
  f_equal; [|f_equal]; lia.
Qed.

Lemma pages_prefix {A} (l : list A) (n : nat) :
  concat (map (paginatedTransactions l) (seq 1 n))
  = firstn (n * itemsPerPage) l.
Proof.
  induction n as [|n IH]; [reflexivity|].
  rewrite seq_S, map_app, concat_app, IH. simpl concat.
  rewrite app_nil_r, paginatedTransactions_S.
  replace (S n * itemsPerPage) with (n * itemsPerPage + itemsPerPage)
    by (unfold itemsPerPage; lia).
  now rewrite firstn_add_skipn.
Qed.

Lemma totalPages_bounds {A} (l : list A) :
  length l <= totalPages l * itemsPerPage
  /\ totalPages l * itemsPerPage < length l + itemsPerPage.
Proof.
  unfold totalPages, itemsPerPage. simpl (10 - 1).
  pose proof (Nat.div_mod_eq (length l + 9) 10) as E.
  pose proof (Nat.mod_upper_bound (length l + 9) 10 ltac:(discriminate)) as B.
  lia.
Qed.

(** X11. The pages of [TransactionsPage] cut the sorted list into
    consecutive pieces: the pages 1 to [totalPages], one after the other,
    are the sorted list; a page has at most ten rows; a page from 1 to
    [totalPages] is not empty and every page before the last has exactly
    ten rows; a page after [totalPages] is empty.  The "previous", "next"
    and page links keep the current page between 1 and [totalPages]. *)
Theorem pages_partition_sorted_transactions :
  forall (A : Type) (sortedTransactions : list A),
    concat (map (paginatedTransactions sortedTransactions)
                (seq 1 (totalPages sortedTransactions)))
    = sortedTransactions
    /\ (forall page,
           length (paginatedTransactions sortedTransactions page)
           <= itemsPerPage)
    /\ (forall page,
           1 <= page <= totalPages sortedTransactions ->
           paginatedTransactions sortedTransactions page <> [])
    /\ (forall page,
           1 <= page < totalPages sortedTransactions ->
           length (paginatedTransactions sortedTransactions page)
           = itemsPerPage)
    /\ (forall page,
           totalPages sortedTransactions < page ->
           paginatedTransactions sortedTransactions page = [])
    /\ (forall currentPage click,
           1 <= currentPage <= totalPages sortedTransactions ->
           match click with
           | Link i => i < totalPages sortedTransactions
           | _ => True
           end ->
           1 <= clickPage (totalPages sortedTransactions) currentPage click
           <= totalPages sortedTransactions).
Proof.
  intros A l. pose proof (totalPages_bounds l) as [Hup Hlow].
  assert (Hlen : forall page,
             length (paginatedTransactions l page)
             = Nat.min (page * itemsPerPage - (page - 1) * itemsPerPage)
                       (length l - (page - 1) * itemsPerPage)).
  { intro page. unfold paginatedTransactions, slice.
    now rewrite length_firstn, length_skipn. }
  unfold itemsPerPage in *.
  split; [|split; [|split; [|split; [|split]]]].
  - rewrite pages_prefix. apply firstn_all2. exact Hup.
  - intro page. rewrite Hlen. lia.
  - intros page Hp E. apply (f_equal (@length A)) in E.
    rewrite Hlen in E. simpl in E. lia.
  - intros page Hp. rewrite Hlen. lia.
  - intros page Hp. apply length_zero_iff_nil. rewrite Hlen. lia.
  - intros currentPage click Hc Hclick. destruct click; simpl.
    + destruct (Nat.ltb_spec 1 currentPage); lia.
    + destruct (Nat.ltb_spec currentPage (totalPages l)); lia.
    + lia.
Qed.

(** ** Budgets by period *)

Lemma Period_eqb_eq (a b : Period) : Period_eqb a b = true <-> a = b.
Proof. destruct a, b; simpl; split; congruence. Qed.

Lemma Period_eqb_refl (a : Period) : Period_eqb a a = true.
Proof. now destruct a. Qed.

Lemma pushTo_keys (period : Period) (budget : Budget.t) (groups : Groups) :
  map fst (pushTo period budget groups) = map fst groups.
Proof.
  induction groups as [|[p g] rest IH]; simpl; [reflexivity|].
  destruct (Period_eqb p period); simpl; [reflexivity|now rewrite IH].
Qed.

Lemma lookupGroup_pushTo (period q : Period) (budget : Budget.t)
      (groups : Groups) :
  lookupGroup q (pushTo period budget groups)
  = if Period_eqb period q
    then option_map (fun g => g ++ [budget]) (lookupGroup q groups)
    else lookupGroup q groups.
Proof.
  unfold lookupGroup.
  induction groups as [|[p g] rest IH]; simpl.
  - now destruct (Period_eqb period q).
  - destruct (Period_eqb p period) eqn:E; simpl.
    + apply Period_eqb_eq in E. subst p.
      destruct (Period_eqb period q); reflexivity.
    + destruct (Period_eqb p q) eqn:F; simpl; [|exact IH].
      destruct (Period_eqb period q) eqn:G; [|reflexivity].
      apply Period_eqb_eq in F, G. subst.
      now rewrite Period_eqb_refl in E.
Qed.

Lemma lookupGroup_new_key (period q : Period) (groups : Groups) :
  lookupGroup q (groups ++ [(period, [])])
  = match lookupGroup q groups with
    | Some g => Some g
    | None => if Period_eqb period q then Some [] else None
    end.
Proof.
  unfold lookupGroup.
  induction groups as [|[p g] rest IH]; simpl.
  - now destruct (Period_eqb period q).
  - destruct (Period_eqb p q); [reflexivity|exact IH].
Qed.

Lemma hasKey_lookupGroup (period : Period) (groups : Groups) :
  hasKey period groups
  = match lookupGroup period groups with Some _ => true | None => false end.
Proof.
  unfold hasKey, lookupGroup.
  induction groups as [|[p g] rest IH]; simpl; [reflexivity|].
  destruct (Period_eqb p period); [reflexivity|exact IH].
Qed.

Lemma lookupGroup_absent (period : Period) (groups : Groups) :
  lookupGroup period groups = None -> ~ In period (map fst groups).
Proof.
  unfold lookupGroup.
  induction groups as [|[p g] rest IH]; simpl; [tauto|].
  destruct (Period_eqb p period) eqn:E; [discriminate|].
  intros H [->|Hin]; [now rewrite Period_eqb_refl in E|].
  now apply IH.
Qed.

Lemma ofPeriod_snoc (q : Period) (seen : list Budget.t) (b : Budget.t) :
  ofPeriod q (seen ++ [b])
  = ofPeriod q seen ++ (if Period_eqb (Budget.period b) q then [b] else []).
Proof. unfold ofPeriod. rewrite filter_app. reflexivity. Qed.

Lemma groupedBudgets_lookup (budgets : list Budget.t) :
  NoDup (map fst (groupedBudgets budgets))
  /\ forall q,
      lookupGroup q (groupedBudgets budgets)
      = match ofPeriod q budgets with [] => None | g => Some g end.
Proof.
  induction budgets as [|b seen [IHk IHl]] using rev_ind.
  - split; [constructor|reflexivity].
  - unfold groupedBudgets in *. rewrite fold_left_app. simpl.
    set (groups := fold_left groupStep seen []) in *.
    unfold groupStep. rewrite hasKey_lookupGroup.
    split.
    + rewrite pushTo_keys.
      destruct (lookupGroup (Budget.period b) groups) eqn:E; [exact IHk|].
      rewrite map_app. simpl.
      apply NoDup_app_remove_l with (l := []). simpl.
      apply (Permutation_NoDup (l := Budget.period b :: map fst groups)).
      * apply Permutation_cons_append.
      * constructor; [now apply lookupGroup_absent|exact IHk].
    + intro q. rewrite lookupGroup_pushTo, ofPeriod_snoc.
      destruct (lookupGroup (Budget.period b) groups) eqn:E.
      * rewrite IHl.
        destruct (Period_eqb (Budget.period b) q) eqn:F.
        -- apply Period_eqb_eq in F. subst q. rewrite IHl in E.
           destruct (ofPeriod (Budget.period b) seen); [discriminate|].
           reflexivity.
        -- rewrite app_nil_r. reflexivity.
      * rewrite lookupGroup_new_key, IHl.
        destruct (Period_eqb (Budget.period b) q) eqn:F.
        -- apply Period_eqb_eq in F. subst q. rewrite IHl in E.
           destruct (ofPeriod (Budget.period b) seen); [|discriminate].
           reflexivity.
        -- rewrite app_nil_r.
           destruct (ofPeriod q seen); reflexivity.
Qed.

Lemma lookupGroup_In (q : Period) (g : list Budget.t) (groups : Groups) :
  NoDup (map fst groups) ->
  (In (q, g) groups <-> lookupGroup q groups = Some g).
Proof.
  unfold lookupGroup.
  induction groups as [|[p g'] rest IH]; simpl; intro Hk.
  - split; [tauto|discriminate].
  - inversion Hk as [|? ? Hnot Hk']; subst.
    destruct (Period_eqb p q) eqn:E; simpl.
    + apply Period_eqb_eq in E. subst p. split.
      * intros [H|H]; [congruence|].
        exfalso. apply Hnot. apply (in_map fst) in H. exact H.
      * intro H. left. congruence.
    + rewrite <- (IH Hk'). split; [|tauto].
      intros [H|H]; [|exact H].
      injection H as -> _. now rewrite Period_eqb_refl in E.
Qed.

Lemma pushTo_count (period : Period) (budget : Budget.t) (groups : Groups) :
  length (concat (map snd (pushTo period budget groups)))
  = length (concat (map snd groups))
    + (if hasKey period groups then 1 else 0).
Proof.
  unfold hasKey.
  induction groups as [|[p g] rest IH]; simpl; [reflexivity|].
  destruct (Period_eqb p period); simpl.
  - rewrite !length_app. simpl. lia.
  - rewrite !length_app, IH. lia.
Qed.

Lemma groupStep_count (groups : Groups) (budget : Budget.t) :
  length (concat (map snd (groupStep groups budget)))
  = S (length (concat (map snd groups))).
Proof.
  unfold groupStep. rewrite pushTo_count.
  destruct (hasKey (Budget.period budget) groups) eqn:E.
  - rewrite E. lia.
  - unfold hasKey. rewrite existsb_app. simpl.
    rewrite Period_eqb_refl, orb_true_r.
    rewrite map_app, concat_app, length_app. simpl. lia.
Qed.

Lemma groupedBudgets_count (budgets : list Budget.t) :
  length (concat (map snd (groupedBudgets budgets))) = length budgets.
Proof.
  induction budgets as [|b seen IH] using rev_ind; [reflexivity|].
  unfold groupedBudgets in *. rewrite fold_left_app. simpl.
  rewrite groupStep_count, IH, length_app. simpl. lia.
Qed.

(** X12. The groups [BudgetsPage] shows are the budgets split by period:
    no period appears twice; the group shown under a period holds exactly
    the budgets of that period, in the order of the budgets, and is never
    empty; and every budget is in the group of its period.  So at most
    three groups are shown, and every budget is shown once. *)
Theorem groupedBudgets_splits_by_period :
  forall budgets : list Budget.t,
    NoDup (map fst (groupedBudgets budgets))
    /\ (forall period group,
           In (period, group) (groupedBudgets budgets)
           <-> group = ofPeriod period budgets /\ group <> [])
    /\ (forall b,
           In b budgets ->
           exists group,
             In (Budget.period b, group) (groupedBudgets budgets)
             /\ In b group)
    /\ length (groupedBudgets budgets) <= 3
    /\ length (concat (map snd (groupedBudgets budgets))) = length budgets.
Proof.
  intro budgets.
  destruct (groupedBudgets_lookup budgets) as [Hk Hl].
  assert (Hin : forall period group,
             In (period, group) (groupedBudgets budgets)
             <-> group = ofPeriod period budgets /\ group <> []).
  { intros period group. rewrite (lookupGroup_In _ _ _ Hk), Hl.
    destruct (ofPeriod period budgets) as [|x g] eqn:E.
    - split; [discriminate|]. intros [-> H]. now contradiction H.
    - split.
      + intro H. injection H as <-. split; [reflexivity|discriminate].
      + intros [-> _]. reflexivity. }
  split; [exact Hk|]. split; [exact Hin|]. split; [|split].
  - intros b Hb. exists (ofPeriod (Budget.period b) budgets).
    assert (Hbin : In b (ofPeriod (Budget.period b) budgets)).
    { unfold ofPeriod. apply filter_In. split; [exact Hb|].
      apply Period_eqb_refl. }
    split; [|exact Hbin].
    apply Hin. split; [reflexivity|].
    intro E. rewrite E in Hbin. exact Hbin.
  - rewrite <- (length_map fst).
    apply (NoDup_incl_length (l' := [weekly; monthly; yearly]) Hk).
    intros p _. destruct p; simpl; tauto.
  - apply groupedBudgets_count.
Qed.

(** ** The dialogs *)

Lemma positive_number (x : float) :
  PrimFloat.is_nan x || PrimFloat.leb x 0 = false ->
  PrimFloat.ltb 0 x = true /\ PrimFloat.is_nan x = false.
Proof.
  intro H. apply orb_false_iff in H. destruct H as [Hnan Hle].
  split; [|exact Hnan].
  unfold PrimFloat.is_nan in Hnan.
  rewrite eqb_spec in Hnan. rewrite leb_spec in Hle. rewrite ltb_spec.
  change (Prim2SF 0) with (S754_zero false) in *.
  destruct (Prim2SF x) as [s|s| |s m e]; simpl in *;
    try discriminate; destruct s; simpl in *; try discriminate; reflexivity.
Qed.

(** X13. What the dialogs hand to the provider is validated: a
    transaction that [TransactionDialog] adds or edits has an amount that
    is a number greater than 0 and a category and a date that are not
    empty, and a budget that [BudgetDialog] adds or edits has a limit that
    is a number greater than 0 and a category that is not empty.  An edit
    is sent for the id of the record being edited and carries no id and,
    for a budget, no [spent]. *)
Theorem dialogs_submit_valid_records :
  forall (parseFloat : string -> float),
    (forall formData transaction t,
        submitTransaction parseFloat formData transaction
        = CallAddTransaction t ->
        transaction = None
        /\ PrimFloat.ltb 0 (NewTransaction.amount t) = true
        /\ PrimFloat.is_nan (NewTransaction.amount t) = false
        /\ NewTransaction.category t <> ""
        /\ NewTransaction.date t <> "")
    /\ (forall formData transaction id fields,
           submitTransaction parseFloat formData transaction
           = CallUpdateTransaction id fields ->
           exists old amount category date,
             transaction = Some old
             /\ id = Transaction.id old
             /\ Transaction.id' fields = None
             /\ Transaction.amount' fields = Some amount
             /\ PrimFloat.ltb 0 amount = true
             /\ Transaction.category' fields = Some category
             /\ category <> ""
             /\ Transaction.date' fields = Some date
             /\ date <> "")
    /\ (forall formData budget b,
           submitBudget parseFloat formData budget = CallAddBudget b ->
           budget = None
           /\ PrimFloat.ltb 0 (NewBudget.limit b) = true
           /\ PrimFloat.is_nan (NewBudget.limit b) = false
           /\ NewBudget.category b <> "")
    /\ (forall formData budget id fields,
           submitBudget parseFloat formData budget
           = CallUpdateBudget id fields ->
           exists old limit category,
             budget = Some old
             /\ id = Budget.id old
             /\ Budget.id' fields = None
             /\ Budget.spent' fields = None
             /\ Budget.limit' fields = Some limit
             /\ PrimFloat.ltb 0 limit = true
             /\ Budget.category' fields = Some category
             /\ category <> "").
Proof.
  intro parseFloat.
  assert (Hne : forall s, isEmpty s = false -> s <> "").
  { intros s H ->. discriminate H. }
  split; [|split; [|split]].
  - intros formData transaction t. unfold submitTransaction.
    destruct (isEmpty (form_amount formData)
              || isEmpty (form_category formData)
              || isEmpty (form_date formData)) eqn:E; [discriminate|].
    apply orb_false_iff in E. destruct E as [E Ed].
    apply orb_false_iff in E. destruct E as [_ Ec].
    destruct (PrimFloat.is_nan _ || PrimFloat.leb _ 0) eqn:V;
      [discriminate|].
    apply positive_number in V. destruct V as [Vp Vn].
    destruct transaction; [discriminate|].
    intro H. injection H as <-. simpl. repeat split; auto.
  - intros formData transaction id fields. unfold submitTransaction.
    destruct (isEmpty (form_amount formData)
              || isEmpty (form_category formData)
              || isEmpty (form_date formData)) eqn:E; [discriminate|].
    apply orb_false_iff in E. destruct E as [E Ed].
    apply orb_false_iff in E. destruct E as [_ Ec].
    destruct (PrimFloat.is_nan _ || PrimFloat.leb _ 0) eqn:V;
      [discriminate|].
    apply positive_number in V. destruct V as [Vp Vn].
    destruct transaction as [old|]; [|discriminate].
    intro H. injection H as <- <-.
    exists old, (parseFloat (form_amount formData)),
      (form_category formData), (form_date formData).
    simpl. repeat split; auto.
  - intros formData budget b. unfold submitBudget.
    destruct (isEmpty (bform_category formData)
              || isEmpty (bform_limit formData)) eqn:E; [discriminate|].
    apply orb_false_iff in E. destruct E as [Ec _].
    destruct (PrimFloat.is_nan _ || PrimFloat.leb _ 0) eqn:V;
      [discriminate|].
    apply positive_number in V. destruct V as [Vp Vn].
    destruct budget; [discriminate|].
    intro H. injection H as <-. simpl. repeat split; auto.
  - intros formData budget id fields. unfold submitBudget.
    destruct (isEmpty (bform_category formData)
              || isEmpty (bform_limit formData)) eqn:E; [discriminate|].
    apply orb_false_iff in E. destruct E as [Ec _].
    destruct (PrimFloat.is_nan _ || PrimFloat.leb _ 0) eqn:V;
      [discriminate|].
    apply positive_number in V. destruct V as [Vp Vn].
    destruct budget as [old|]; [|discriminate].
    intro H. injection H as <- <-.
    exists old, (parseFloat (bform_limit formData)),
      (bform_category formData).
    simpl. repeat split; auto.
Qed.

(** X14. An edit made through a dialog keeps the ids, and an edit of a
    budget keeps every [spent]: whatever the form holds, whoever is signed
    in and whatever the remote store replies, after [updateBudget] is
    called with what [BudgetDialog] submits the budgets have the ids and
    the amounts spent they had, also when the edit moves the budget to
    another category; and after [updateTransaction] is called with what
    [TransactionDialog] submits the ledger has the ids it had. *)
Theorem dialog_edits_keep_ids_and_spent :
  forall (parseFloat : string -> float) (sb : Supabase) (r : Render)
         (w : World),
    (forall formData budget id fields,
        submitBudget parseFloat formData budget = CallUpdateBudget id fields ->
        map Budget.id (budgets (store (snd (updateBudget sb r id fields w))))
        = map Budget.id (budgets (store w))
        /\ map Budget.spent
               (budgets (store (snd (updateBudget sb r id fields w))))
           = map Budget.spent (budgets (store w)))
    /\ (forall formData transaction id fields,
           submitTransaction parseFloat formData transaction
           = CallUpdateTransaction id fields ->
           map Transaction.id
               (transactions
                  (store (snd (updateTransaction sb r id fields w))))
           = map Transaction.id (transactions (store w))).
Proof.
  intros parseFloat sb r w. split.
  - intros formData budget id fields H.
    assert (Hf : Budget.id' fields = None /\ Budget.spent' fields = None).
    { unfold submitBudget in H.
      destruct (_ || _) in H; [discriminate|].
      destruct (_ || _) in H; [discriminate|].
      destruct budget; [|discriminate].
      injection H as _ <-. now split. }
    destruct Hf as [Hi Hs].
    unfold updateBudget. destruct (signedOut r); [now split|].
    run. destruct (mutate sb (calls w) _); simpl; [now split|].
    rewrite !map_map. split; apply map_ext; intro b;
      (destruct (String.eqb (Budget.id b) id); [|reflexivity]);
      unfold Budget.spread; simpl; now rewrite ?Hi, ?Hs.
  - intros formData transaction id fields H.
    assert (Hi : Transaction.id' fields = None).
    { unfold submitTransaction in H.
      destruct (_ || _) in H; [discriminate|].
      destruct (_ || _) in H; [discriminate|].
      destruct transaction; [|discriminate].
      injection H as _ <-. reflexivity. }
    unfold updateTransaction. destruct (signedOut r); [reflexivity|].
    run. destruct (mutate sb (calls w) _); simpl; [reflexivity|].
    match goal with
    | |- context [recalculateBudgets sb r ?w0] =>
        pose proof (recalculateBudgets_returns sb r w0) as R;
        pose proof (recalculateBudgets_transactions sb r w0) as T;
        destruct (recalculateBudgets sb r w0) as [o w1]
    end.
    simpl in R, T. subst o. simpl. rewrite T. simpl.
    rewrite map_map. apply map_ext. intro t.
    destruct (String.eqb (Transaction.id t) id); [|reflexivity].
    unfold Transaction.spread. simpl. now rewrite Hi.
Qed.

(** X15. A category added through a dialog keeps the names of the
    categories distinct up to case.  If no two categories of the store have
    the same lower-cased name, [handleAddNewCategory] accepts the new name
    against those categories, and the remote insert returns the name it was
    sent, then after [addCategory] no two categories have the same
    lower-cased name either, whether the insert succeeded or not. *)
Theorem new_category_keeps_names_distinct :
  forall (toLowerCase trim : string -> string) (sb : Supabase) (r : Render)
         (w : World) (newCategory : string) (type : CategoryType)
         (color : string) (category : NewCategory.t),
    distinctNames toLowerCase (categories (store w)) ->
    handleAddNewCategory toLowerCase trim (categories (store w))
                         newCategory type color
    = CallAddCategory category ->
    (forall v data,
        insert_category sb (calls w) v = Data data ->
        crow_name data = cins_name v) ->
    distinctNames toLowerCase
                  (categories (store (snd (addCategory sb r category w)))).
Proof.
  intros toLowerCase trim sb r w newCategory type color category Hd Hsub
         Hecho.
  unfold handleAddNewCategory in Hsub.
  destruct (isEmpty (trim newCategory)); [discriminate|].
  destruct (existsb _ (categories (store w))) eqn:Hex; [discriminate|].
  injection Hsub as <-.
  unfold addCategory. destruct (signedOut r); [exact Hd|].
  run. destruct (insert_category sb (calls w) _) as [e|data] eqn:Hins;
    simpl; [exact Hd|].
  apply Hecho in Hins. simpl in Hins.
  unfold distinctNames in *. simpl. rewrite Hins.
  constructor; [|exact Hd].
  intro Hin. apply in_map_iff in Hin. destruct Hin as (cat & Hlow & Hcat).
  assert (Hfalse : existsb
                     (fun cat => String.eqb (toLowerCase (Category.name cat))
                                            (toLowerCase newCategory))
                     (categories (store w)) = true).
  { apply existsb_exists. exists cat. split; [exact Hcat|].
    now apply String.eqb_eq. }
  congruence.
Qed.

Lemma new_category_keeps_names_distinct_witness :
  distinctNames lowerFT (categories store50)
  /\ distinctNames lowerFT
       (categories
          (store (snd (addCategory accepting
                         (render store50 true (Some alice)) newTravel
                         (start store50))))).
Proof.
  assert (H : distinctNames lowerFT (categories store50)).
  { unfold distinctNames. simpl. constructor; [simpl; tauto|constructor]. }
  split; [exact H|].
  apply (new_category_keeps_names_distinct
           lowerFT (fun s => s) accepting (render store50 true (Some alice))
           (start store50) "Travel" for_expense "#0EA5E9" newTravel H
           eq_refl).
  intros v data E. injection E as <-. reflexivity.
Defined.

(** The dialogs at work: a filled form is handed to the provider, a form
    whose amount is no number or whose limit is missing is refused. *)
Lemma dialogs_examples :
  submitTransaction parseTwoNumbers lunchForm None = CallAddTransaction lunch
  /\ submitTransaction parseTwoNumbers
       {| form_amount := "abc"; form_category := "Food";
          form_date := "2024-01-15"; form_description := "";
          form_type := expense |} None
     = TransactionError "Amount must be a positive number"
  /\ submitBudget parseTwoNumbers rentForm (Some (foodBudget 80))
     = CallUpdateBudget "b1" toRentCategory
  /\ submitBudget parseTwoNumbers
       {| bform_category := "Rent"; bform_limit := "";
          bform_period := monthly |} None
     = BudgetError "Category and limit are required"
  /\ handleAddNewCategory lowerFT (fun s => s) [groceries] "food"
                          for_expense "#0EA5E9"
     = CategoryError "Category already exists".
Proof. repeat split. Qed.
